(** * Alert-instance state machine (pkg/services/ngalert/state/state.go)

    A shallow embedding of the Go source: the [State] struct, the four
    [result*] transition methods, [setEndsAt], [NeedsSending], [Equals] and
    [TrimResults], followed by the properties the specification states about
    them. *)

From Stdlib Require Import ZArith Lia List Sorting.Sorted Sorting.Permutation.
From Stdlib Require SpecFloat.
From stdpp Require Import base option list sorting strings gmap fin_maps.

Local Open Scope Z_scope.

(** ** Go's fixed-width integers and float64 *)

Module int64.
Definition min : Z := - 2 ^ 63.
Definition max : Z := 2 ^ 63 - 1.

(** Two's-complement wrap-around of a mathematical integer. *)
Definition wrap (z : Z) : Z := (z + 2 ^ 63) mod 2 ^ 64 - 2 ^ 63.

Definition InRange (z : Z) : Prop := min <= z <= max.

Definition mul (x y : Z) : Z := wrap (x * y).

(** [x / y]: truncated toward zero; a zero divisor is a run-time panic
    ([None]). *)
Definition div (x y : Z) : option Z :=
  if y =? 0 then None else Some (wrap (Z.quot x y)).
End int64.

Module float64.
(** IEEE 754 binary64, through the Standard Library's executable
    specification of floating-point arithmetic. *)
Definition prec : Z := 53.
Definition emax : Z := 1024.

Abbreviation t := SpecFloat.spec_float.

(** [float64(z)] for an integer [z]: round to nearest, ties to even. *)
Definition of_int (z : Z) : t := SpecFloat.binary_normalize prec emax z 0 false.

Definition add : t -> t -> t := SpecFloat.SFadd prec emax.
Definition div : t -> t -> t := SpecFloat.SFdiv prec emax.

(** [int64(f)]: the fractional part is discarded (truncation toward zero).
    For a value that does not fit (and for NaN) Go leaves the result
    implementation-specific; amd64 yields the minimal int64. *)
Definition to_int64 (f : t) : Z :=
  match f with
  | SpecFloat.S754_zero _ => 0
  | SpecFloat.S754_finite s m e =>
      let z := SpecFloat.cond_Zopp s (Z.shiftl (Z.pos m) e) in
      if (int64.min <=? z) && (z <=? int64.max) then z else int64.min
  | _ => int64.min
  end.
End float64.

(** ** Package time *)

Module time.
(** [time.Duration] is an int64 count of nanoseconds. *)
Abbreviation Duration := Z (only parsing).

Definition Second : Duration := 1000000000.
Definition Minute : Duration := 60 * Second.

Definition minDuration : Duration := int64.min.
Definition maxDuration : Duration := int64.max.

(** [func (d Duration) Seconds() float64]:
    [sec := d / Second; nsec := d % Second;
     return float64(sec) + float64(nsec)/1e9]. *)
Definition Seconds (d : Duration) : float64.t :=
  let sec := Z.quot d Second in
  let nsec := Z.rem d Second in
  float64.add (float64.of_int sec)
              (float64.div (float64.of_int nsec) (float64.of_int 1000000000)).

(** The location pointer of a Time: nil for UTC, the address of the local
    location, or the address of a location that was loaded. *)
Inductive Location : Set := UTC | Local | Loaded (address : positive).

#[global] Instance Location_eq_dec : EqDecision Location.
Proof. solve_decision. Defined.

(** A [time.Time] is a wall-clock value: the instant it denotes, as the
    number of nanoseconds since the zero Time (January 1, year 1, 00:00
    UTC), and its location.  The methods read the instant; the operator
    [==] of Go compares the whole value, the location included, and is the
    equality of this record.  The times of evaluations carry no monotonic
    clock reading (only [time.Now] attaches one), and the model has
    none. *)
Record Time : Set := { instant :> Z; loc : Location }.

#[global] Instance Time_eq_dec : EqDecision Time.
Proof. solve_decision. Defined.

Definition zero : Time := {| instant := 0; loc := UTC |}.

Definition IsZero (t : Time) : bool := t =? 0.
Definition Add (t : Time) (d : Duration) : Time :=
  {| instant := t + d; loc := loc t |}.
Definition Before (t u : Time) : bool := t <? u.
Definition Equal (t u : Time) : bool := t =? u.

(** [t.Sub(u)]: the duration [t - u], saturated to the largest or smallest
    Duration when the difference does not fit. *)
Definition Sub (t u : Time) : Duration :=
  let d := t - u in
  if maxDuration <? d then maxDuration
  else if d <? minDuration then minDuration
  else d.
End time.

Coercion time.instant : time.Time >-> Z.

(** ** Errors *)

Module expr.
(** Modelled from the spec: the structured query error of package expr, a
    tagged error variant carrying the reference of the failing expression
    and the error's message. *)
Record QueryError := { RefID : string; Message : string }.

(** [func (e QueryError) Error() string]. *)
Definition Error (e : QueryError) : string := Message e.
End expr.

(** A non-nil Go [error] value: an ordinary error, a query error, or an
    error wrapping another one (as [fmt.Errorf] with [%w] builds).  The nil
    error is [None] of [option error]. *)
Inductive error : Type :=
| errorString (s : string)
| exprQueryError (q : expr.QueryError)
| wrapError (msg : string) (err : error).

Module errors.
(** [errors.As(err, &queryError)]: the first error of the chain that is a
    query error, if there is one. *)
Fixpoint As_chain (err : error) : option expr.QueryError :=
  match err with
  | errorString _ => None
  | exprQueryError q => Some q
  | wrapError _ inner => As_chain inner
  end.

Definition As (err : option error) : option expr.QueryError :=
  match err with
  | None => None
  | Some e => As_chain e
  end.
End errors.

(** ** Package eval *)

Module eval.
(** Modelled from the spec: the categorical state, one of Normal, Alerting,
    Pending, NoData and Error; it is also the outcome of an evaluation. *)
Inductive State : Set := Normal | Alerting | Pending | NoData | Error.

#[global] Instance State_eq_dec : EqDecision State.
Proof. solve_decision. Defined.

(** Modelled from the spec: the textual form of a categorical state,
    [func (s State) String() string] of package eval. *)
Definition String (s : State) : string :=
  match s with
  | Normal => "Normal"
  | Alerting => "Alerting"
  | Pending => "Pending"
  | NoData => "NoData"
  | Error => "Error"
  end.

(** Modelled from the spec: an evaluation result, with its categorical
    outcome, its timestamp and its optional error. *)
Module Result.
Record t := {
  State : State;
  Error : option error;
  EvaluatedAt : time.Time;
  EvaluationDuration : time.Duration;
  EvaluationString : string
}.
End Result.
End eval.

(** ** Package ngModels *)

Module ngModels.
(** Modelled from the spec: the policy for a NoData outcome. *)
Inductive NoDataState : Set := Alerting | NoData | OK.

(** Modelled from the spec: the policy for an Error outcome. *)
Inductive ExecutionErrorState : Set := AlertingErrState | ErrorErrState.

#[global] Instance ExecutionErrorState_eq_dec : EqDecision ExecutionErrorState.
Proof. solve_decision. Defined.

(** Modelled from the spec: an expression definition of a rule, with its
    reference and its data-source identifier. *)
Module AlertQuery.
Record t := { RefID : string; DatasourceUID : string }.
End AlertQuery.

(** Modelled from the spec: the rule configuration a transition reads. *)
Module AlertRule.
Record t := {
  For : time.Duration;
  IntervalSeconds : Z;
  ExecErrState : ExecutionErrorState;
  NoDataState : NoDataState;
  Data : list AlertQuery.t
}.
End AlertRule.
End ngModels.

(** ** Package data: label sets *)

Module data.
(** [type Labels map[string]string]. *)
Abbreviation Labels := (gmap string string).

(** Modelled from the spec: the writing loop of the canonical rendering
    [Labels.String], which belongs to the data package and not to this
    source file: for each key in turn the text [k=v], and [", "] after every
    entry but the last. *)
Fixpoint writeEntries (l : Labels) (keys : list string) : string :=
  match keys with
  | [] => ""
  | k :: rest =>
      k +:+ "=" +:+ default "" (l !! k)
        +:+ (match rest with [] => "" | _ :: _ => ", " end)
        +:+ writeEntries l rest
  end.

(** Modelled from the spec: the canonical textual form of a label set,
    sorted by key.  The keys are collected by ranging over the map, in
    whatever order [range] the iteration yields them, sorted, and the
    entries written in the sorted order. *)
Definition StringFrom (range : list string) (l : Labels) : string :=
  writeEntries l (merge_sort String.le range).

(** [func (l Labels) String() string], with the iteration order of the
    map's own enumeration. *)
Definition String (l : Labels) : string :=
  StringFrom (map fst (map_to_list l)) l.

(** A label set built by successive assignments [l[k] = v], in the order of
    [entries]. *)
Definition assignAll (entries : list (string * string)) : Labels :=
  foldl (λ l kv, <[kv.1 := kv.2]> l) ∅ entries.
End data.

(** ** Package state: the data model *)

Module Evaluation.
Record t := {
  EvaluationTime : time.Time;
  EvaluationState : eval.State;
  EvaluationString : string;
  Values : gmap string (option float64.t)
}.

(** The zero value of the struct, what [make] fills a fresh slice with. *)
Definition zero : t :=
  {| EvaluationTime := time.zero; EvaluationState := eval.Normal;
     EvaluationString := ""; Values := ∅ |}.
End Evaluation.

(** The struct [State].  Its field [State] holds the categorical state; the
    two mappings are allocated maps (an assignment into a nil map is a
    run-time panic, which no method here guards against). *)
Module State.
Record t := {
  AlertRuleUID : string;
  OrgID : Z;
  CacheId : string;
  State : eval.State;
  Resolved : bool;
  Results : list Evaluation.t;
  StartsAt : time.Time;
  EndsAt : time.Time;
  LastEvaluationTime : time.Time;
  EvaluationDuration : time.Duration;
  LastSentAt : time.Time;
  Annotations : gmap string string;
  Labels : data.Labels;
  Error : option error
}.

(** Assignments to single fields of the struct. *)
Definition set_State (a : t) (v : eval.State) : t :=
  {| AlertRuleUID := AlertRuleUID a; OrgID := OrgID a; CacheId := CacheId a;
     State := v; Resolved := Resolved a; Results := Results a;
     StartsAt := StartsAt a; EndsAt := EndsAt a;
     LastEvaluationTime := LastEvaluationTime a;
     EvaluationDuration := EvaluationDuration a; LastSentAt := LastSentAt a;
     Annotations := Annotations a; Labels := Labels a; Error := Error a |}.

Definition set_Results (a : t) (v : list Evaluation.t) : t :=
  {| AlertRuleUID := AlertRuleUID a; OrgID := OrgID a; CacheId := CacheId a;
     State := State a; Resolved := Resolved a; Results := v;
     StartsAt := StartsAt a; EndsAt := EndsAt a;
     LastEvaluationTime := LastEvaluationTime a;
     EvaluationDuration := EvaluationDuration a; LastSentAt := LastSentAt a;
     Annotations := Annotations a; Labels := Labels a; Error := Error a |}.

Definition set_StartsAt (a : t) (v : time.Time) : t :=
  {| AlertRuleUID := AlertRuleUID a; OrgID := OrgID a; CacheId := CacheId a;
     State := State a; Resolved := Resolved a; Results := Results a;
     StartsAt := v; EndsAt := EndsAt a;
     LastEvaluationTime := LastEvaluationTime a;
     EvaluationDuration := EvaluationDuration a; LastSentAt := LastSentAt a;
     Annotations := Annotations a; Labels := Labels a; Error := Error a |}.

Definition set_EndsAt (a : t) (v : time.Time) : t :=
  {| AlertRuleUID := AlertRuleUID a; OrgID := OrgID a; CacheId := CacheId a;
     State := State a; Resolved := Resolved a; Results := Results a;
     StartsAt := StartsAt a; EndsAt := v;
     LastEvaluationTime := LastEvaluationTime a;
     EvaluationDuration := EvaluationDuration a; LastSentAt := LastSentAt a;
     Annotations := Annotations a; Labels := Labels a; Error := Error a |}.

Definition set_Annotations (a : t) (v : gmap string string) : t :=
  {| AlertRuleUID := AlertRuleUID a; OrgID := OrgID a; CacheId := CacheId a;
     State := State a; Resolved := Resolved a; Results := Results a;
     StartsAt := StartsAt a; EndsAt := EndsAt a;
     LastEvaluationTime := LastEvaluationTime a;
     EvaluationDuration := EvaluationDuration a; LastSentAt := LastSentAt a;
     Annotations := v; Labels := Labels a; Error := Error a |}.

Definition set_Labels (a : t) (v : data.Labels) : t :=
  {| AlertRuleUID := AlertRuleUID a; OrgID := OrgID a; CacheId := CacheId a;
     State := State a; Resolved := Resolved a; Results := Results a;
     StartsAt := StartsAt a; EndsAt := EndsAt a;
     LastEvaluationTime := LastEvaluationTime a;
     EvaluationDuration := EvaluationDuration a; LastSentAt := LastSentAt a;
     Annotations := Annotations a; Labels := v; Error := Error a |}.

Definition set_Error (a : t) (v : option error) : t :=
  {| AlertRuleUID := AlertRuleUID a; OrgID := OrgID a; CacheId := CacheId a;
     State := State a; Resolved := Resolved a; Results := Results a;
     StartsAt := StartsAt a; EndsAt := EndsAt a;
     LastEvaluationTime := LastEvaluationTime a;
     EvaluationDuration := EvaluationDuration a; LastSentAt := LastSentAt a;
     Annotations := Annotations a; Labels := Labels a; Error := v |}.
End State.

(** ** Slices *)

Module slice.
(** [make([]T, n)]: [n] zero values; a negative length is a run-time
    panic. *)
Definition make {T} (zero : T) (n : Z) : option (list T) :=
  if n <? 0 then None else Some (replicate (Z.to_nat n) zero).

(** [s[i:]]: the elements from index [i] on; an index outside [0, len(s)]
    is a run-time panic. *)
Definition from {T} (s : list T) (i : Z) : option (list T) :=
  if (i <? 0) || (Z.of_nat (length s) <? i) then None
  else Some (drop (Z.to_nat i) s).

(** [copy(dst, src)]: the first [min(len(dst), len(src))] elements of [dst]
    are overwritten by those of [src]. *)
Definition copy {T} (dst src : list T) : list T :=
  let n := Nat.min (length dst) (length src) in
  take n src ++ drop n dst.
End slice.

(** ** Package state: the methods of [State] *)

Section Methods.

(** The package-level [ResendDelay], the fixed resend delay; its value is
    declared outside this source file. *)
Variable ResendDelay : time.Duration.

(** The local [ends] of [setEndsAt]: the resend delay, or the rule's
    interval when that is longer. *)
Definition ends (alertRule : ngModels.AlertRule.t) : time.Duration :=
  let ends := ResendDelay in
  if ngModels.AlertRule.IntervalSeconds alertRule
       >? float64.to_int64 (time.Seconds ResendDelay)
  then int64.mul time.Second (ngModels.AlertRule.IntervalSeconds alertRule)
  else ends.

Definition setEndsAt (a : State.t) (alertRule : ngModels.AlertRule.t)
    (result : eval.Result.t) : State.t :=
  State.set_EndsAt a
    (time.Add (eval.Result.EvaluatedAt result) (int64.mul (ends alertRule) 3)).

Definition resultNormal (a : State.t) (alertRule : ngModels.AlertRule.t)
    (result : eval.Result.t) : State.t :=
  let a := State.set_Error a (eval.Result.Error result) in
  let a :=
    if bool_decide (State.State a ≠ eval.Normal) then
      let a := State.set_EndsAt a (eval.Result.EvaluatedAt result) in
      State.set_StartsAt a (eval.Result.EvaluatedAt result)
    else a in
  State.set_State a eval.Normal.

Definition resultAlerting (a : State.t) (alertRule : ngModels.AlertRule.t)
    (result : eval.Result.t) : State.t :=
  let a := State.set_Error a (eval.Result.Error result) in
  match State.State a with
  | eval.Alerting => setEndsAt a alertRule result
  | eval.Pending =>
      if time.Sub (eval.Result.EvaluatedAt result) (State.StartsAt a)
           >? ngModels.AlertRule.For alertRule
      then
        let a := State.set_State a eval.Alerting in
        let a := State.set_StartsAt a (eval.Result.EvaluatedAt result) in
        setEndsAt a alertRule result
      else a
  | _ =>
      let a := State.set_StartsAt a (eval.Result.EvaluatedAt result) in
      let a := setEndsAt a alertRule result in
      if negb (ngModels.AlertRule.For alertRule >? 0) then
        State.set_State a eval.Alerting
      else
        State.set_State a eval.Pending
  end.

(** The loop of [resultError] over the rule's expression definitions: the
    first definition with the reference of the query error gives the two
    labels, and ends the loop. *)
Fixpoint labelFailedQuery (labels : data.Labels)
    (Data : list ngModels.AlertQuery.t) (queryError : expr.QueryError)
    : data.Labels :=
  match Data with
  | [] => labels
  | next :: rest =>
      if bool_decide (ngModels.AlertQuery.RefID next = expr.RefID queryError)
      then
        let labels := <["ref_id" := ngModels.AlertQuery.RefID next]> labels in
        <["datasource_uid" := ngModels.AlertQuery.DatasourceUID next]> labels
      else labelFailedQuery labels rest queryError
  end.

Definition resultError (a : State.t) (alertRule : ngModels.AlertRule.t)
    (result : eval.Result.t) : State.t :=
  let a := State.set_Error a (eval.Result.Error result) in
  let a :=
    if time.IsZero (State.StartsAt a)
    then State.set_StartsAt a (eval.Result.EvaluatedAt result)
    else a in
  let a := setEndsAt a alertRule result in
  if bool_decide (ngModels.AlertRule.ExecErrState alertRule
                  = ngModels.AlertingErrState) then
    State.set_State a eval.Alerting
  else if bool_decide (ngModels.AlertRule.ExecErrState alertRule
                       = ngModels.ErrorErrState) then
    let a := State.set_State a eval.Error in
    match errors.As (State.Error a) with
    | Some queryError =>
        let a :=
          State.set_Labels a
            (labelFailedQuery (State.Labels a)
               (ngModels.AlertRule.Data alertRule) queryError) in
        State.set_Annotations a
          (<["Error" := expr.Error queryError]> (State.Annotations a))
    | None => a
    end
  else a.

Definition resultNoData (a : State.t) (alertRule : ngModels.AlertRule.t)
    (result : eval.Result.t) : State.t :=
  let a := State.set_Error a (eval.Result.Error result) in
  let a :=
    if time.IsZero (State.StartsAt a)
    then State.set_StartsAt a (eval.Result.EvaluatedAt result)
    else a in
  let a := setEndsAt a alertRule result in
  match ngModels.AlertRule.NoDataState alertRule with
  | ngModels.Alerting => State.set_State a eval.Alerting
  | ngModels.NoData => State.set_State a eval.NoData
  | ngModels.OK => State.set_State a eval.Normal
  end.

(** Modelled from the spec: the Transition Engine's entry point, which is
    not part of this source file.  It maps the outcome of the evaluation
    result to the branch of that outcome; Pending is not an outcome of an
    evaluation and leaves the state as it is. *)
Definition Transition (a : State.t) (alertRule : ngModels.AlertRule.t)
    (result : eval.Result.t) : State.t :=
  match eval.Result.State result with
  | eval.Normal => resultNormal a alertRule result
  | eval.Alerting => resultAlerting a alertRule result
  | eval.Error => resultError a alertRule result
  | eval.NoData => resultNoData a alertRule result
  | eval.Pending => a
  end.

(** Modelled from the spec: the evaluation loop of one instance, which
    applies the results of successive evaluations in their order. *)
Definition TransitionAll (a : State.t) (alertRule : ngModels.AlertRule.t)
    (results : list eval.Result.t) : State.t :=
  foldl (λ a result, Transition a alertRule result) a results.

End Methods.

Definition NeedsSending (a : State.t) (resendDelay : time.Duration) : bool :=
  if bool_decide (State.State a = eval.Pending)
     || (bool_decide (State.State a = eval.Normal) && negb (State.Resolved a))
  then false
  else
    let nextSent := time.Add (State.LastSentAt a) resendDelay in
    time.Before nextSent (State.LastEvaluationTime a)
    || time.Equal nextSent (State.LastEvaluationTime a).

(** [Equals]; the three times are compared with [==], as whole values, and
    the two mappings through their canonical text. *)
Definition Equals (a b : State.t) : bool :=
  bool_decide (State.AlertRuleUID a = State.AlertRuleUID b)
  && bool_decide (State.OrgID a = State.OrgID b)
  && bool_decide (State.CacheId a = State.CacheId b)
  && bool_decide (data.String (State.Labels a) = data.String (State.Labels b))
  && bool_decide (eval.String (State.State a) = eval.String (State.State b))
  && bool_decide (State.StartsAt a = State.StartsAt b)
  && bool_decide (State.EndsAt a = State.EndsAt b)
  && bool_decide (State.LastEvaluationTime a = State.LastEvaluationTime b)
  && bool_decide (data.String (State.Annotations a)
                  = data.String (State.Annotations b)).


(** The local [numBuckets] of [TrimResults], after the replacement of zero
    by 10; [None] when the division panics. *)
Definition numBuckets (alertRule : ngModels.AlertRule.t) : option Z :=
  q ← int64.div
        (float64.to_int64 (time.Seconds (ngModels.AlertRule.For alertRule)))
        (ngModels.AlertRule.IntervalSeconds alertRule);
  let numBuckets := int64.mul 2 q in
  Some (if numBuckets =? 0 then 10 else numBuckets).

(** [TrimResults]; [None] is a run-time panic. *)
Definition TrimResults (a : State.t) (alertRule : ngModels.AlertRule.t)
    : option State.t :=
  numBuckets ← numBuckets alertRule;
  if Z.of_nat (length (State.Results a)) <? numBuckets then Some a
  else
    newResults ← slice.make Evaluation.zero numBuckets;
    src ← slice.from (State.Results a)
            (Z.of_nat (length (State.Results a)) - numBuckets);
    Some (State.set_Results a (slice.copy newResults src)).

(** ** Sample values *)

Module sample.
(** The instant [s] seconds after the zero Time. *)
Definition at_second (s : Z) : time.Time := time.Add time.zero (s * time.Second).

Definition ResendDelay : time.Duration := 30 * time.Second.

Definition queryA : ngModels.AlertQuery.t :=
  {| ngModels.AlertQuery.RefID := "A";
     ngModels.AlertQuery.DatasourceUID := "ds1" |}.

(** A rule evaluated every [interval] seconds that fires after [for_]. *)
Definition rule (for_ : time.Duration) (interval : Z) : ngModels.AlertRule.t :=
  {| ngModels.AlertRule.For := for_;
     ngModels.AlertRule.IntervalSeconds := interval;
     ngModels.AlertRule.ExecErrState := ngModels.ErrorErrState;
     ngModels.AlertRule.NoDataState := ngModels.NoData;
     ngModels.AlertRule.Data := [queryA] |}.

Definition evaluation (s : Z) : Evaluation.t :=
  {| Evaluation.EvaluationTime := at_second s;
     Evaluation.EvaluationState := eval.Normal;
     Evaluation.EvaluationString := "";
     Evaluation.Values := ∅ |}.

(** A history of [n] evaluations, at the seconds 1 to [n]. *)
Definition history (n : nat) : list Evaluation.t :=
  evaluation <$> seqZ 1 (Z.of_nat n).

(** An instance in state [st] whose run began at second [startsAt]. *)
Definition state (st : eval.State) (startsAt endsAt : Z) : State.t :=
  {| State.AlertRuleUID := "rule-1";
     State.OrgID := 1;
     State.CacheId := "instance-1";
     State.State := st;
     State.Resolved := false;
     State.Results := history 15;
     State.StartsAt := at_second startsAt;
     State.EndsAt := at_second endsAt;
     State.LastEvaluationTime := at_second startsAt;
     State.EvaluationDuration := 0;
     State.LastSentAt := time.zero;
     State.Annotations := ∅;
     State.Labels := ∅;
     State.Error := None |}.

Definition result (outcome : eval.State) (evaluatedAt : Z)
    (err : option error) : eval.Result.t :=
  {| eval.Result.State := outcome;
     eval.Result.Error := err;
     eval.Result.EvaluatedAt := at_second evaluatedAt;
     eval.Result.EvaluationDuration := 0;
     eval.Result.EvaluationString := "" |}.

(** A failure of the query with reference [ref], wrapped once. *)
Definition queryFailure (ref : string) : option error :=
  Some (wrapError "failed to evaluate"
          (exprQueryError {| expr.RefID := ref; expr.Message := "boom" |})).

(** The same instance with its two mappings built by assignments. *)
Definition labelled (a : State.t) (labels annotations : list (string * string))
    : State.t :=
  State.set_Annotations (State.set_Labels a (data.assignAll labels))
    (data.assignAll annotations).
End sample.

(** ** Package state: the values of an evaluation *)

Module NumberValueCapture.
(** Modelled from the spec: a numeric capture of package eval, of which
    [NewEvaluationValues] reads the field [Value], a pointer to a float64
    that may be nil. *)
Record t := { Var : string; Value : option float64.t }.
End NumberValueCapture.

(** The loop of [NewEvaluationValues]: [result[k] = v.Value] for the
    entries of the map, in the order [range] in which the iteration yields
    them. *)
Definition NewEvaluationValuesFrom
    (range : list (string * NumberValueCapture.t))
    : gmap string (option float64.t) :=
  foldl (λ result kv, <[kv.1 := NumberValueCapture.Value kv.2]> result)
    ∅ range.

(** [NewEvaluationValues], with the iteration order of the map's own
    enumeration. *)
Definition NewEvaluationValues (m : gmap string NumberValueCapture.t)
    : gmap string (option float64.t) :=
  NewEvaluationValuesFrom (map_to_list m).

(** ** The route table: [getFilteredRoutes] *)

Module js.
(** [s.includes(search)]: [search] occurs in [s] as a substring. *)
Fixpoint includes (s search : string) : bool :=
  String.prefix search s
  || match s with
     | EmptyString => false
     | String _ rest => includes rest search
     end.

(** [intersectionWith(array, others, comparator)] of lodash: the values of
    [array] that the comparator finds in [others], each kept once, in the
    order of their first occurrence. *)
Definition intersectionWith {T} (array others : list T)
    (comparator : T → T → bool) : list T :=
  foldl (λ result x,
           if existsb (comparator x) others
              && negb (existsb (comparator x) result)
           then result ++ [x] else result)
    [] array.
End js.

Section RouteTable.

(** The types of the routes and of their matchers, and the helpers
    [parseMatchers], [matcherFieldToMatcher] and [toLowerCase], are declared
    outside this source file; [isEqual] is the structural equality of
    lodash. *)
Context {Route MatcherField Matcher : Type} `{!EqDecision Matcher}.
Variable object_matchers : Route → list MatcherField.
Variable receiver : Route → string.
Variable parseMatchers : string → list Matcher.
Variable matcherFieldToMatcher : MatcherField → Matcher.
Variable toLowerCase : string → string.

Definition isEqual (x y : Matcher) : bool := bool_decide (x = y).

(** The first filter: a route passes when one of its matchers is among the
    parsed ones. *)
Definition matchesLabels (matchers : list Matcher) (route : Route) : bool :=
  let routeMatchers := List.map matcherFieldToMatcher (object_matchers route) in
  (0 <? length (js.intersectionWith routeMatchers matchers isEqual))%nat.

(** The second filter: the receiver contains the query, letter case
    apart. *)
Definition matchesContactPoint (contactPointQuery : string) (route : Route)
    : bool :=
  js.includes (toLowerCase (receiver route)) (toLowerCase contactPointQuery).

(** [getFilteredRoutes(routes, labelMatcherQuery?, contactPointQuery?)];
    an argument left out is [None]. *)
Definition getFilteredRoutes (routes : list Route)
    (labelMatcherQuery contactPointQuery : option string) : list Route :=
  let matchers := parseMatchers (default "" labelMatcherQuery) in
  let filteredRoutes := routes in
  let filteredRoutes :=
    if negb (length matchers =? 0)%nat
    then List.filter (matchesLabels matchers) routes
    else filteredRoutes in
  match contactPointQuery with
  | Some query =>
      if (0 <? String.length query)%nat
      then List.filter (matchesContactPoint query) filteredRoutes
      else filteredRoutes
  | None => filteredRoutes
  end.

End RouteTable.

(** ** More sample values *)

Module fixture.
(** A route of the table, as far as the filters read it. *)
Record route := { matchers : list (string * string); contactPoint : string }.

(** A matcher query of the form [name=value], read as one matcher; every
    other text holds none. *)
Definition parse (query : string) : list (string * string) :=
  match String.index 0 "=" query with
  | Some i =>
      [(String.substring 0 i query,
        String.substring (S i) (String.length query - S i) query)]
  | None => []
  end.

Definition routes : list route :=
  [ {| matchers := [("team", "a")]; contactPoint := "mail" |};
    {| matchers := [("team", "b")]; contactPoint := "pager" |};
    {| matchers := [("team", "a"); ("env", "prod")]; contactPoint := "pager" |} ].

Definition filtered (labelMatcherQuery contactPointQuery : option string)
    : list route :=
  getFilteredRoutes matchers contactPoint parse id id routes
    labelMatcherQuery contactPointQuery.

Definition capture (v : option float64.t) : NumberValueCapture.t :=
  {| NumberValueCapture.Var := "A"; NumberValueCapture.Value := v |}.

(** The state [sample.state] with another history. *)
Definition withHistory (n : nat) : State.t :=
  State.set_Results (sample.state eval.Normal 100 100) (sample.history n).
End fixture.

(** * Properties *)

(** ** Durations and times *)

Lemma Sub_exact (t u : time.Time) :
  time.minDuration <= t - u <= time.maxDuration → time.Sub t u = t - u.
Proof.
  intros [Hlo Hhi]. unfold time.Sub.
  destruct (Z.ltb_spec time.maxDuration (t - u)); [lia|].
  destruct (Z.ltb_spec (t - u) time.minDuration); [lia|]. reflexivity.
Qed.

(** Below the largest Duration the saturation of [Sub] is invisible to a
    comparison: the saturated difference exceeds [d] exactly when the
    difference of the instants does. *)
Lemma Sub_gt_iff (t u : time.Time) (d : time.Duration) :
  time.minDuration <= d < time.maxDuration →
  (d < time.Sub t u ↔ d < t - u).
Proof.
  intros [Hlo Hhi]. unfold time.Sub.
  destruct (Z.ltb_spec time.maxDuration (t - u)); [lia|].
  destruct (Z.ltb_spec (t - u) time.minDuration); lia.
Qed.

(** ** Whole seconds through float64 *)

(** A positive number of [d] binary digits is at least [2 ^ (d - 1)]. *)
Lemma digits2_pos_lower (p : positive) :
  2 ^ (Z.pos (SpecFloat.digits2_pos p) - 1) <= Z.pos p.
Proof.
  induction p as [p IH|p IH|]; cbn [SpecFloat.digits2_pos].
  - rewrite Pos2Z.inj_succ.
    replace (Z.succ (Z.pos (SpecFloat.digits2_pos p)) - 1)
      with (Z.succ (Z.pos (SpecFloat.digits2_pos p) - 1)) by lia.
    rewrite Z.pow_succ_r by lia. lia.
  - rewrite Pos2Z.inj_succ.
    replace (Z.succ (Z.pos (SpecFloat.digits2_pos p)) - 1)
      with (Z.succ (Z.pos (SpecFloat.digits2_pos p) - 1)) by lia.
    rewrite Z.pow_succ_r by lia. lia.
  - cbn. lia.
Qed.

(** A number below [2 ^ n] has at most [n] binary digits. *)
Lemma digits2_pos_le (p : positive) (n : Z) :
  Z.pos p < 2 ^ n → Z.pos (SpecFloat.digits2_pos p) <= n.
Proof.
  intros Hp. pose proof (digits2_pos_lower p) as Hl.
  destruct (Z.le_gt_cases (Z.pos (SpecFloat.digits2_pos p)) n) as [|Hgt];
    [assumption|].
  assert (0 <= n).
  { destruct (Z.le_gt_cases 0 n); [assumption|].
    rewrite Z.pow_neg_r in Hp by lia. lia. }
  assert (2 ^ n <= 2 ^ (Z.pos (SpecFloat.digits2_pos p) - 1))
    by (apply Z.pow_le_mono_r; lia).
  lia.
Qed.

(** Shifting a mantissa left by [q] bits multiplies it by [2 ^ q] and adds
    [q] digits. *)
Lemma iter_xO_spec (p q : positive) :
  Z.pos (Pos.iter xO p q) = Z.pos p * 2 ^ Z.pos q
  ∧ SpecFloat.digits2_pos (Pos.iter xO p q)
    = (SpecFloat.digits2_pos p + q)%positive.
Proof.
  induction q as [|q IH] using Pos.peano_ind.
  - cbn. split; [lia|]. rewrite Pos.add_1_r. reflexivity.
  - rewrite Pos.iter_succ. destruct IH as [IH1 IH2].
    cbn [SpecFloat.digits2_pos]. rewrite IH2.
    rewrite Pos2Z.inj_xO, IH1, Pos2Z.inj_succ, Z.pow_succ_r by lia.
    split; [lia|]. lia.
Qed.

(** A mantissa of exactly 53 digits with an exponent in range is not
    rounded. *)
Lemma binary_round_aux_exact (m : positive) (e : Z) :
  Z.pos (SpecFloat.digits2_pos m) = 53 → -1074 <= e <= 971 →
  SpecFloat.binary_round_aux 53 1024 false (Z.pos m) e SpecFloat.loc_Exact
  = SpecFloat.S754_finite false m e.
Proof.
  intros Hm He.
  unfold SpecFloat.binary_round_aux, SpecFloat.shr_fexp, SpecFloat.fexp,
    SpecFloat.emin.
  cbn [SpecFloat.Zdigits2 SpecFloat.shr_record_of_loc]. rewrite Hm.
  replace (Z.max (53 + e - 53) (3 - 1024 - 53) - e) with 0 by lia.
  cbn [SpecFloat.shr SpecFloat.shr_m SpecFloat.loc_of_shr_record
       SpecFloat.round_nearest_even SpecFloat.Zdigits2
       SpecFloat.shr_record_of_loc].
  rewrite Hm.
  replace (Z.max (53 + e - 53) (3 - 1024 - 53) - e) with 0 by lia.
  cbn [SpecFloat.shr SpecFloat.shr_m].
  destruct (Z.leb_spec e (1024 - 53)); [reflexivity | lia].
Qed.

(** Integers below [2 ^ 53] pass through float64 unchanged. *)
Lemma to_int64_of_int (p : positive) :
  Z.pos p < 2 ^ 53 → float64.to_int64 (float64.of_int (Z.pos p)) = Z.pos p.
Proof.
  intros Hp.
  pose proof (digits2_pos_le p 53 Hp) as Hd.
  assert (Hrange : (int64.min <=? Z.pos p) && (Z.pos p <=? int64.max) = true).
  { apply andb_true_intro. unfold int64.min, int64.max.
    split; [apply Z.leb_le | apply Z.leb_le]; lia. }
  unfold float64.of_int, SpecFloat.binary_normalize, SpecFloat.binary_round.
  unfold SpecFloat.fexp, SpecFloat.emin, float64.prec, float64.emax.
  rewrite Z.add_0_r.
  rewrite Z.max_l by lia.
  unfold SpecFloat.shl_align. rewrite Z.sub_0_r.
  destruct (Z.pos (SpecFloat.digits2_pos p) - 53) as [|q|q] eqn:Hq; [|lia|].
  - rewrite binary_round_aux_exact by lia.
    unfold float64.to_int64, SpecFloat.cond_Zopp. rewrite Z.shiftl_0_r.
    rewrite Hrange. reflexivity.
  - destruct (iter_xO_spec p q) as [Hval Hdig].
    rewrite binary_round_aux_exact; [|rewrite Hdig; lia|lia].
    unfold float64.to_int64, SpecFloat.cond_Zopp.
    change (Z.neg q) with (- Z.pos q).
    rewrite Z.shiftl_opp_r, Z.shiftr_div_pow2 by lia.
    rewrite Hval, Z.div_mul by (apply Z.pow_nonzero; lia).
    rewrite Hrange. reflexivity.
Qed.

(** The whole seconds of a duration of [k] seconds are [k]: for them the
    conversion through float64 is exact. *)
Lemma Seconds_whole (k : Z) :
  0 <= k < 2 ^ 53 →
  float64.to_int64 (time.Seconds (k * time.Second)) = k
  ∧ Z.quot (k * time.Second) time.Second = k.
Proof.
  intros Hk.
  assert (Hq : Z.quot (k * time.Second) time.Second = k)
    by (apply Z.quot_mul; discriminate).
  assert (Hr : Z.rem (k * time.Second) time.Second = 0)
    by (apply Z.rem_mul; discriminate).
  split; [|assumption].
  unfold time.Seconds. rewrite Hq, Hr.
  change (float64.div (float64.of_int 0) (float64.of_int 1000000000))
    with (SpecFloat.S754_zero false).
  destruct k as [|p|p]; [reflexivity| |lia].
  rewrite <- (to_int64_of_int p) at 2 by lia.
  unfold float64.add, SpecFloat.SFadd.
  destruct (float64.of_int (Z.pos p)) as [[|]|[|]| |]; reflexivity.
Qed.

(** ** The Transition Engine *)

Section TransitionProperties.

Variable ResendDelay : time.Duration.

(** C1: an Alerting result on a Pending state promotes the state to Alerting
    if and only if the time elapsed from StartsAt to the evaluation
    timestamp (as [Time.Sub] measures it) strictly exceeds the rule's For;
    on promotion StartsAt becomes the evaluation timestamp and EndsAt is
    refreshed; otherwise the state stays Pending and StartsAt and EndsAt
    keep their values.  For a For below the largest Duration the elapsed
    time is the plain difference of the two instants. *)
Theorem pending_promoted_iff_For_exceeded
    (a : State.t) (alertRule : ngModels.AlertRule.t) (result : eval.Result.t) :
  State.State a = eval.Pending →
  eval.Result.State result = eval.Alerting →
  let a' := Transition ResendDelay a alertRule result in
  let elapsed := time.Sub (eval.Result.EvaluatedAt result) (State.StartsAt a) in
  a' = resultAlerting ResendDelay a alertRule result
  ∧ (State.State a' = eval.Alerting
       ↔ ngModels.AlertRule.For alertRule < elapsed)
  ∧ (ngModels.AlertRule.For alertRule < elapsed →
       State.StartsAt a' = eval.Result.EvaluatedAt result
       ∧ State.EndsAt a'
         = time.Add (eval.Result.EvaluatedAt result)
             (int64.mul (ends ResendDelay alertRule) 3))
  ∧ (¬ ngModels.AlertRule.For alertRule < elapsed →
       State.State a' = eval.Pending
       ∧ State.StartsAt a' = State.StartsAt a
       ∧ State.EndsAt a' = State.EndsAt a)
  ∧ (time.minDuration <= ngModels.AlertRule.For alertRule < time.maxDuration →
       (State.State a' = eval.Alerting
          ↔ ngModels.AlertRule.For alertRule
            < eval.Result.EvaluatedAt result - State.StartsAt a)).
Proof.
  intros Hst Hres a' elapsed. subst a' elapsed.
  unfold Transition. rewrite Hres. split; [reflexivity|].
  unfold resultAlerting. cbn. rewrite Hst.
  destruct (Z.gtb_spec
              (time.Sub (eval.Result.EvaluatedAt result) (State.StartsAt a))
              (ngModels.AlertRule.For alertRule)) as [Hgt|Hle]; cbn.
  - repeat split; auto; try lia.
    + intros _. apply Sub_gt_iff; [assumption | lia].
  - rewrite Hst. repeat split; try discriminate; try lia.
    + intros Hlt. apply Sub_gt_iff in Hlt; [lia | assumption].
Qed.

(** C2: an Alerting result on a state that is neither Alerting nor Pending
    sets StartsAt to the evaluation timestamp and refreshes EndsAt; the new
    state is Alerting when For is zero and Pending when For is positive. *)
Theorem fresh_alert_starts_run
    (a : State.t) (alertRule : ngModels.AlertRule.t) (result : eval.Result.t) :
  State.State a ≠ eval.Alerting →
  State.State a ≠ eval.Pending →
  eval.Result.State result = eval.Alerting →
  let a' := Transition ResendDelay a alertRule result in
  a' = resultAlerting ResendDelay a alertRule result
  ∧ State.StartsAt a' = eval.Result.EvaluatedAt result
  ∧ State.EndsAt a'
    = time.Add (eval.Result.EvaluatedAt result)
        (int64.mul (ends ResendDelay alertRule) 3)
  ∧ (ngModels.AlertRule.For alertRule = 0 → State.State a' = eval.Alerting)
  ∧ (0 < ngModels.AlertRule.For alertRule → State.State a' = eval.Pending).
Proof.
  intros Hna Hnp Hres a'. subst a'.
  unfold Transition. rewrite Hres. split; [reflexivity|].
  unfold resultAlerting. cbn.
  destruct (Z.gtb_spec (ngModels.AlertRule.For alertRule) 0) as [Hgt|Hle];
    destruct (State.State a) eqn:Hst; try congruence; cbn;
    repeat split; intros; try reflexivity; lia.
Qed.

(** C4 (amended): a Normal result replaces the stored error by the error
    field of the result, which clears it when the result carries no error,
    sets the state to Normal and, when the previous state was not Normal,
    sets StartsAt and EndsAt to the evaluation timestamp; a state that was
    already Normal keeps its StartsAt and EndsAt. *)
Theorem normal_result_resets
    (a : State.t) (alertRule : ngModels.AlertRule.t) (result : eval.Result.t) :
  eval.Result.State result = eval.Normal →
  let a' := Transition ResendDelay a alertRule result in
  a' = resultNormal a alertRule result
  ∧ State.Error a' = eval.Result.Error result
  ∧ (eval.Result.Error result = None → State.Error a' = None)
  ∧ State.State a' = eval.Normal
  ∧ (State.State a ≠ eval.Normal →
       State.StartsAt a' = eval.Result.EvaluatedAt result
       ∧ State.EndsAt a' = eval.Result.EvaluatedAt result)
  ∧ (State.State a = eval.Normal →
       State.StartsAt a' = State.StartsAt a
       ∧ State.EndsAt a' = State.EndsAt a).
Proof.
  intros Hres a'. subst a'.
  unfold Transition. rewrite Hres. split; [reflexivity|].
  unfold resultNormal. cbn.
  case_bool_decide as Hn; cbn; repeat split; auto; intros; congruence.
Qed.

(** C10: a transition, whatever the outcome of the result, leaves the
    identity of the instance (rule, organisation, cache key), LastSentAt,
    Resolved, the history, LastEvaluationTime and EvaluationDuration as
    they were. *)
Theorem Transition_frame
    (a : State.t) (alertRule : ngModels.AlertRule.t) (result : eval.Result.t) :
  let a' := Transition ResendDelay a alertRule result in
  State.AlertRuleUID a' = State.AlertRuleUID a
  ∧ State.OrgID a' = State.OrgID a
  ∧ State.CacheId a' = State.CacheId a
  ∧ State.LastSentAt a' = State.LastSentAt a
  ∧ State.Resolved a' = State.Resolved a
  ∧ State.Results a' = State.Results a
  ∧ State.LastEvaluationTime a' = State.LastEvaluationTime a
  ∧ State.EvaluationDuration a' = State.EvaluationDuration a.
Proof.
  intros a'. subst a'. unfold Transition.
  destruct (eval.Result.State result).
  - unfold resultNormal. cbn. case_bool_decide; cbn; repeat split.
  - unfold resultAlerting. cbn.
    destruct (State.State a); cbn;
      repeat match goal with |- context [if ?b then _ else _] =>
               destruct b; cbn end;
      repeat split.
  - repeat split.
  - unfold resultNoData. cbn.
    destruct (time.IsZero (State.StartsAt a));
      destruct (ngModels.AlertRule.NoDataState alertRule); cbn; repeat split.
  - unfold resultError. cbn.
    destruct (time.IsZero (State.StartsAt a)); cbn;
      repeat case_bool_decide; cbn;
      try destruct (errors.As (eval.Result.Error result)); cbn; repeat split.
Qed.

End TransitionProperties.

(** ** Runs of Alerting results *)

Lemma Sub_mono (t t' u : time.Time) :
  t <= t' → time.Sub t u <= time.Sub t' u.
Proof.
  intros Hle. unfold time.Sub, time.maxDuration, time.minDuration,
                int64.max, int64.min.
  repeat match goal with |- context [?x <? ?y] =>
           destruct (Z.ltb_spec x y) end; lia.
Qed.

Lemma Sub_diag (t : time.Time) : time.Sub t t = 0.
Proof. rewrite Sub_exact; rewrite Z.sub_diag; [reflexivity|]. split; discriminate. Qed.

Section AlertingRun.

Variable ResendDelay : time.Duration.
Variable alertRule : ngModels.AlertRule.t.

(** An Alerting instance stays Alerting on an Alerting result. *)
Lemma alerting_stays (a : State.t) (result : eval.Result.t) :
  State.State a = eval.Alerting →
  eval.Result.State result = eval.Alerting →
  State.State (Transition ResendDelay a alertRule result) = eval.Alerting.
Proof.
  intros Hst Hres. unfold Transition, resultAlerting. rewrite Hres. cbn.
  rewrite Hst. cbn. assumption.
Qed.

(** A Pending instance is promoted, or waits with its StartsAt. *)
Lemma pending_step (a : State.t) (result : eval.Result.t) :
  State.State a = eval.Pending →
  eval.Result.State result = eval.Alerting →
  let a' := Transition ResendDelay a alertRule result in
  let elapsed :=
    time.Sub (eval.Result.EvaluatedAt result) (State.StartsAt a) in
  (ngModels.AlertRule.For alertRule < elapsed
   ∧ State.State a' = eval.Alerting)
  ∨ (¬ ngModels.AlertRule.For alertRule < elapsed
     ∧ State.State a' = eval.Pending
     ∧ State.StartsAt a' = State.StartsAt a).
Proof.
  intros Hst Hres a' elapsed. subst a' elapsed.
  unfold Transition, resultAlerting. rewrite Hres. cbn. rewrite Hst.
  destruct (Z.gtb_spec
              (time.Sub (eval.Result.EvaluatedAt result) (State.StartsAt a))
              (ngModels.AlertRule.For alertRule)) as [Hgt|Hle]; cbn.
  - left. split; [lia | reflexivity].
  - right. split; [lia|]. split; [assumption | reflexivity].
Qed.

(** Along Alerting results in the order of their timestamps, an instance
    that is Pending since [t0], or already Alerting with For exceeded, is at
    the end Pending if For is still not exceeded at the last timestamp, and
    Alerting otherwise. *)
Lemma run_invariant (t0 : time.Time) (results : list eval.Result.t) :
  ∀ (a : State.t) (tprev : time.Time),
    (State.State a = eval.Pending ∧ State.StartsAt a = t0
     ∧ ¬ ngModels.AlertRule.For alertRule < time.Sub tprev t0)
    ∨ (State.State a = eval.Alerting
       ∧ ngModels.AlertRule.For alertRule < time.Sub tprev t0) →
    Forall (λ r, eval.Result.State r = eval.Alerting) results →
    Sorted Z.le
      (time.instant <$> tprev :: (eval.Result.EvaluatedAt <$> results)) →
    let a' := TransitionAll ResendDelay a alertRule results in
    let tlast := default tprev (last (eval.Result.EvaluatedAt <$> results)) in
    (State.State a' = eval.Pending ∧ State.StartsAt a' = t0
     ∧ ¬ ngModels.AlertRule.For alertRule < time.Sub tlast t0)
    ∨ (State.State a' = eval.Alerting
       ∧ ngModels.AlertRule.For alertRule < time.Sub tlast t0).
Proof.
  induction results as [|r results IH]; intros a tprev Hinv Hall Hsorted.
  - exact Hinv.
  - apply Forall_cons in Hall as [Hr Hall].
    rewrite !fmap_cons in Hsorted.
    apply Sorted_inv in Hsorted as [Hsorted Hhd].
    apply HdRel_inv in Hhd. rewrite <- fmap_cons in Hsorted.
    cbn zeta. rewrite fmap_cons, last_cons.
    assert (Hnext :
      default tprev
        (match last (eval.Result.EvaluatedAt <$> results) with
         | Some y => Some y
         | None => Some (eval.Result.EvaluatedAt r)
         end)
      = default (eval.Result.EvaluatedAt r)
          (last (eval.Result.EvaluatedAt <$> results))).
    { destruct (last _); reflexivity. }
    rewrite Hnext.
    change (TransitionAll ResendDelay a alertRule (r :: results))
      with (TransitionAll ResendDelay
              (Transition ResendDelay a alertRule r) alertRule results).
    apply IH; [|assumption|assumption].
    destruct Hinv as [(Hst & Hstart & Hwait) | (Hst & Hdone)].
    + destruct (pending_step a r Hst Hr) as [(Hex & Hst') | (Hw & Hst' & Hs')];
        rewrite Hstart in *.
      * right. split; assumption.
      * left. split; [assumption|]. split; [congruence | assumption].
    + right. split; [apply alerting_stays; assumption|].
      pose proof (Sub_mono _ _ t0 Hhd). lia.
Qed.

(** X9: A run of Alerting results, in the order of their timestamps, on an
    instance that was neither Alerting nor Pending, under a positive For:
    the instance is Pending as long as no more than For has elapsed since
    the first result of the run, and Alerting from then on. *)
Lemma alerting_run (a : State.t) (first : eval.Result.t)
    (results : list eval.Result.t) :
  State.State a ≠ eval.Alerting →
  State.State a ≠ eval.Pending →
  0 < ngModels.AlertRule.For alertRule →
  Forall (λ r, eval.Result.State r = eval.Alerting) (first :: results) →
  Sorted Z.le
    (time.instant <$> (eval.Result.EvaluatedAt <$> first :: results)) →
  let a' := TransitionAll ResendDelay a alertRule (first :: results) in
  let elapsed :=
    time.Sub
      (default (eval.Result.EvaluatedAt first)
         (last (eval.Result.EvaluatedAt <$> results)))
      (eval.Result.EvaluatedAt first) in
  (¬ ngModels.AlertRule.For alertRule < elapsed → State.State a' = eval.Pending)
  ∧ (ngModels.AlertRule.For alertRule < elapsed → State.State a' = eval.Alerting).
Proof.
  intros Hna Hnp Hfor Hall Hsorted a' elapsed. subst a' elapsed.
  apply Forall_cons in Hall as [Hfirst Hall].
  change (TransitionAll ResendDelay a alertRule (first :: results))
    with (TransitionAll ResendDelay
            (Transition ResendDelay a alertRule first) alertRule results).
  assert (Hstart :
    State.State (Transition ResendDelay a alertRule first) = eval.Pending
    ∧ State.StartsAt (Transition ResendDelay a alertRule first)
      = eval.Result.EvaluatedAt first).
  { unfold Transition, resultAlerting. rewrite Hfirst. cbn.
    destruct (Z.gtb_spec (ngModels.AlertRule.For alertRule) 0); [|lia].
    destruct (State.State a); try congruence; split; reflexivity. }
  destruct Hstart as [Hst Hs].
  destruct (run_invariant (eval.Result.EvaluatedAt first) results
              (Transition ResendDelay a alertRule first)
              (eval.Result.EvaluatedAt first)) as [(H1 & _ & H2) | (H1 & H2)].
  - left. split; [assumption|]. split; [assumption|].
    rewrite Sub_diag. lia.
  - assumption.
  - assumption.
  - split; [intros _; assumption | intros; contradiction].
  - split; [intros; contradiction | intros _; assumption].
Qed.

End AlertingRun.

(** ** The auto-resolve window *)

Lemma wrap_InRange (z : Z) : int64.InRange z → int64.wrap z = z.
Proof.
  unfold int64.InRange, int64.min, int64.max, int64.wrap. intros H.
  rewrite Z.mod_small; lia.
Qed.

(** For a non-negative duration, a number of seconds exceeds its whole
    seconds exactly when, as a duration, it exceeds the duration itself. *)
Lemma whole_seconds_lt (d n : Z) :
  0 <= d → (Z.quot d time.Second < n ↔ d < time.Second * n).
Proof.
  intros Hd. rewrite Z.quot_div_nonneg by (unfold time.Second; lia).
  unfold time.Second.
  pose proof (Z.div_mod d 1000000000 ltac:(lia)) as Hdm.
  pose proof (Z.mod_pos_bound d 1000000000 ltac:(lia)) as Hb.
  split; intros; nia.
Qed.

Section AutoResolveWindow.

Variable ResendDelay : time.Duration.

(** The fixed resend delay is not negative, and the conversion of its
    [Seconds()] back to an integer yields its whole seconds. *)
Hypothesis ResendDelay_nonneg : 0 <= ResendDelay.
Hypothesis ResendDelay_Seconds :
  float64.to_int64 (time.Seconds ResendDelay) = Z.quot ResendDelay time.Second.

(** When the rule's interval, in seconds, fits a Duration, [ends] is the
    larger of the resend delay and the interval as a Duration. *)
Lemma ends_max (alertRule : ngModels.AlertRule.t) :
  int64.InRange (time.Second * ngModels.AlertRule.IntervalSeconds alertRule) →
  ends ResendDelay alertRule
  = Z.max ResendDelay
      (int64.mul time.Second (ngModels.AlertRule.IntervalSeconds alertRule)).
Proof.
  intros Hr. unfold ends, int64.mul. rewrite (wrap_InRange _ Hr).
  rewrite ResendDelay_Seconds.
  destruct (Z.gtb_spec (ngModels.AlertRule.IntervalSeconds alertRule)
              (Z.quot ResendDelay time.Second)) as [Hgt|Hle].
  - apply whole_seconds_lt in Hgt; [lia | assumption].
  - assert (¬ ResendDelay
              < time.Second * ngModels.AlertRule.IntervalSeconds alertRule).
    { intros Hlt. apply whole_seconds_lt in Hlt; [lia | assumption]. }
    lia.
Qed.

(** C3 (amended): after a transition on an Alerting, Error or NoData result,
    other than an Alerting result on a Pending state whose For has not been
    strictly exceeded, EndsAt is the evaluation timestamp plus three times
    the larger of the fixed resend delay and the rule's interval as a
    Duration, for every rule whose interval fits a Duration; in the excluded
    case EndsAt keeps its value. *)
Theorem EndsAt_refreshed
    (a : State.t) (alertRule : ngModels.AlertRule.t) (result : eval.Result.t) :
  int64.InRange (time.Second * ngModels.AlertRule.IntervalSeconds alertRule) →
  eval.Result.State result = eval.Alerting
  ∨ eval.Result.State result = eval.Error
  ∨ eval.Result.State result = eval.NoData →
  let a' := Transition ResendDelay a alertRule result in
  let waiting :=
    eval.Result.State result = eval.Alerting
    ∧ State.State a = eval.Pending
    ∧ ¬ ngModels.AlertRule.For alertRule
        < time.Sub (eval.Result.EvaluatedAt result) (State.StartsAt a) in
  (¬ waiting →
     State.EndsAt a'
     = time.Add (eval.Result.EvaluatedAt result)
         (int64.mul
            (Z.max ResendDelay
               (int64.mul time.Second
                  (ngModels.AlertRule.IntervalSeconds alertRule)))
            3))
  ∧ (waiting → State.EndsAt a' = State.EndsAt a).
Proof.
  intros Hr Hres a' waiting. subst a' waiting.
  rewrite <- (ends_max alertRule Hr). unfold Transition.
  destruct Hres as [Hres | [Hres | Hres]]; rewrite Hres.
  - unfold resultAlerting. cbn.
    destruct (State.State a) eqn:Hst; cbn;
      try (split; [reflexivity || (destruct (_ >? _); reflexivity)
                  | intros (_ & ? & _); discriminate]).
    destruct (Z.gtb_spec
                (time.Sub (eval.Result.EvaluatedAt result) (State.StartsAt a))
                (ngModels.AlertRule.For alertRule)) as [Hgt|Hle]; cbn.
    + split; [reflexivity | intros (_ & _ & Hn); lia].
    + split; [intros Hn; exfalso; apply Hn; repeat split; lia | reflexivity].
  - split; [intros _ | intros (? & _); discriminate].
    unfold resultError. cbn.
    destruct (time.IsZero (State.StartsAt a)); cbn;
      repeat case_bool_decide; cbn;
      try destruct (errors.As (eval.Result.Error result)); reflexivity.
  - split; [intros _ | intros (? & _); discriminate].
    unfold resultNoData. cbn.
    destruct (time.IsZero (State.StartsAt a));
      destruct (ngModels.AlertRule.NoDataState alertRule); reflexivity.
Qed.

End AutoResolveWindow.

(** ** The Error branch *)

(** The loop stops at the first definition with the wanted reference. *)
Lemma labelFailedQuery_first labels pre next post queryError :
  (∀ x, x ∈ pre → ngModels.AlertQuery.RefID x ≠ expr.RefID queryError) →
  ngModels.AlertQuery.RefID next = expr.RefID queryError →
  labelFailedQuery labels (pre ++ next :: post) queryError
  = <["datasource_uid" := ngModels.AlertQuery.DatasourceUID next]>
      (<["ref_id" := ngModels.AlertQuery.RefID next]> labels).
Proof.
  intros Hpre Hnext. induction pre as [|x pre IH]; cbn.
  - rewrite bool_decide_eq_true_2 by assumption. reflexivity.
  - rewrite bool_decide_eq_false_2 by (apply Hpre; left).
    apply IH. intros y Hy. apply Hpre. right. assumption.
Qed.

(** Without a definition of the wanted reference the loop runs to its end
    and the labels are as before. *)
Lemma labelFailedQuery_none labels Data queryError :
  (∀ x, x ∈ Data → ngModels.AlertQuery.RefID x ≠ expr.RefID queryError) →
  labelFailedQuery labels Data queryError = labels.
Proof.
  intros HD. induction Data as [|x Data IH]; cbn; [reflexivity|].
  rewrite bool_decide_eq_false_2 by (apply HD; left).
  apply IH. intros y Hy. apply HD. right. assumption.
Qed.

(** A list with a matching definition splits at its first one. *)
Lemma first_match_split (Data : list ngModels.AlertQuery.t) (ref : string) :
  (∃ d, d ∈ Data ∧ ngModels.AlertQuery.RefID d = ref) →
  ∃ pre next post,
    Data = pre ++ next :: post
    ∧ (∀ x, x ∈ pre → ngModels.AlertQuery.RefID x ≠ ref)
    ∧ ngModels.AlertQuery.RefID next = ref.
Proof.
  induction Data as [|x Data IH]; intros (d & Hin & Hd).
  - inversion Hin.
  - destruct (decide (ngModels.AlertQuery.RefID x = ref)) as [Hx|Hx].
    + exists [], x, Data. repeat split; [|assumption].
      intros y Hy. inversion Hy.
    + destruct IH as (pre & next & post & -> & Hpre & Hnext).
      { apply elem_of_cons in Hin as [-> | Hin]; [congruence|eauto]. }
      exists (x :: pre), next, post. repeat split; [|assumption].
      intros y Hy. apply elem_of_cons in Hy as [-> | Hy]; auto.
Qed.

Section ErrorBranch.

Variable ResendDelay : time.Duration.

(** C7: an Error result whose error carries a query error, under a rule that
    maps errors to the Error state and has a definition with the reference
    of the query error, yields the state Error, the label ref_id with that
    reference, the label datasource_uid with the data-source identifier of
    the (first) definition of that reference, and the annotation Error with
    the message of the query error. *)
Theorem query_error_enriches
    (a : State.t) (alertRule : ngModels.AlertRule.t) (result : eval.Result.t)
    (queryError : expr.QueryError) :
  eval.Result.State result = eval.Error →
  ngModels.AlertRule.ExecErrState alertRule = ngModels.ErrorErrState →
  errors.As (eval.Result.Error result) = Some queryError →
  (∃ d, d ∈ ngModels.AlertRule.Data alertRule
        ∧ ngModels.AlertQuery.RefID d = expr.RefID queryError) →
  let a' := Transition ResendDelay a alertRule result in
  a' = resultError ResendDelay a alertRule result
  ∧ State.State a' = eval.Error
  ∧ State.Labels a' !! "ref_id" = Some (expr.RefID queryError)
  ∧ (∃ pre next post,
       ngModels.AlertRule.Data alertRule = pre ++ next :: post
       ∧ (∀ x, x ∈ pre →
            ngModels.AlertQuery.RefID x ≠ expr.RefID queryError)
       ∧ ngModels.AlertQuery.RefID next = expr.RefID queryError
       ∧ State.Labels a' !! "datasource_uid"
         = Some (ngModels.AlertQuery.DatasourceUID next))
  ∧ State.Annotations a' !! "Error" = Some (expr.Error queryError).
Proof.
  intros Hres Hexec Has Hex a'. subst a'.
  unfold Transition. rewrite Hres. split; [reflexivity|].
  unfold resultError. rewrite Hexec.
  rewrite (bool_decide_eq_false_2 (_ = ngModels.AlertingErrState))
    by discriminate.
  rewrite (bool_decide_eq_true_2 (_ = ngModels.ErrorErrState)) by reflexivity.
  cbn.
  destruct (first_match_split _ _ Hex) as (pre & next & post & HD & Hpre & Hn).
  destruct (time.IsZero (State.StartsAt a)); cbn; rewrite Has; cbn.
  all: rewrite HD, (labelFailedQuery_first _ pre next post _ Hpre Hn).
  all: split; [reflexivity|].
  all: split; [rewrite lookup_insert_ne by discriminate;
               rewrite lookup_insert_eq; congruence|].
  all: split; [|apply lookup_insert_eq].
  all: exists pre, next, post; repeat split; auto; apply lookup_insert_eq.
Qed.

(** C8 (amended): when the query error's reference matches none of the
    rule's definitions, the labels are left as they were, and the annotation
    Error is still set to the message of the query error, the other
    annotations being left as they were. *)
Theorem unmatched_query_error_annotates
    (a : State.t) (alertRule : ngModels.AlertRule.t) (result : eval.Result.t)
    (queryError : expr.QueryError) :
  eval.Result.State result = eval.Error →
  ngModels.AlertRule.ExecErrState alertRule = ngModels.ErrorErrState →
  errors.As (eval.Result.Error result) = Some queryError →
  (∀ d, d ∈ ngModels.AlertRule.Data alertRule →
        ngModels.AlertQuery.RefID d ≠ expr.RefID queryError) →
  let a' := Transition ResendDelay a alertRule result in
  a' = resultError ResendDelay a alertRule result
  ∧ State.State a' = eval.Error
  ∧ State.Labels a' = State.Labels a
  ∧ State.Annotations a'
    = <["Error" := expr.Error queryError]> (State.Annotations a)
  ∧ State.Annotations a' !! "Error" = Some (expr.Error queryError)
  ∧ (∀ k, k ≠ "Error" → State.Annotations a' !! k = State.Annotations a !! k).
Proof.
  intros Hres Hexec Has Hno a'. subst a'.
  unfold Transition. rewrite Hres. split; [reflexivity|].
  unfold resultError. rewrite Hexec.
  rewrite (bool_decide_eq_false_2 (_ = ngModels.AlertingErrState))
    by discriminate.
  rewrite (bool_decide_eq_true_2 (_ = ngModels.ErrorErrState)) by reflexivity.
  cbn.
  destruct (time.IsZero (State.StartsAt a)); cbn; rewrite Has; cbn;
    rewrite (labelFailedQuery_none _ _ _ Hno);
    repeat split; try apply lookup_insert_eq;
    intros k Hk; apply lookup_insert_ne; congruence.
Qed.

(** An error without a query error in its chain leaves both mappings as
    they were. *)
Lemma opaque_error_no_enrichment
    (a : State.t) (alertRule : ngModels.AlertRule.t) (result : eval.Result.t) :
  eval.Result.State result = eval.Error →
  errors.As (eval.Result.Error result) = None →
  let a' := Transition ResendDelay a alertRule result in
  State.Labels a' = State.Labels a
  ∧ State.Annotations a' = State.Annotations a.
Proof.
  intros Hres Has a'. subst a'.
  unfold Transition, resultError. rewrite Hres. cbn.
  destruct (time.IsZero (State.StartsAt a)); cbn;
    repeat case_bool_decide; cbn; rewrite ?Has; split; reflexivity.
Qed.

End ErrorBranch.

(** ** The Resend Policy *)

(** C5: NeedsSending is false for a Pending state and for a Normal state
    that is not Resolved; in every other case it is true exactly when
    LastSentAt plus the resend delay is before or equal to
    LastEvaluationTime. *)
Theorem NeedsSending_spec (a : State.t) (resendDelay : time.Duration) :
  (State.State a = eval.Pending → NeedsSending a resendDelay = false)
  ∧ (State.State a = eval.Normal → State.Resolved a = false →
       NeedsSending a resendDelay = false)
  ∧ (State.State a ≠ eval.Pending →
     ¬ (State.State a = eval.Normal ∧ State.Resolved a = false) →
       (NeedsSending a resendDelay = true
          ↔ time.Add (State.LastSentAt a) resendDelay
            <= State.LastEvaluationTime a)
       ∧ NeedsSending a resendDelay
         = time.Before (time.Add (State.LastSentAt a) resendDelay)
             (State.LastEvaluationTime a)
           || time.Equal (time.Add (State.LastSentAt a) resendDelay)
                (State.LastEvaluationTime a)).
Proof.
  unfold NeedsSending. split; [|split].
  - intros ->. reflexivity.
  - intros -> ->. reflexivity.
  - intros Hnp Hnn.
    rewrite (bool_decide_eq_false_2 _ Hnp). cbn.
    assert (Hguard : bool_decide (State.State a = eval.Normal)
                     && negb (State.Resolved a) = false).
    { case_bool_decide as Hn; [|reflexivity].
      destruct (State.Resolved a); [reflexivity|]. exfalso. auto. }
    rewrite Hguard. split; [|reflexivity].
    unfold time.Before, time.Equal, time.Add. cbn. lia.
Qed.

(** ** The History Window *)

(** Copying as many elements as the fresh slice holds fills it with them. *)
Lemma copy_full {T} (zero : T) (n : nat) (src : list T) :
  length src = n → slice.copy (replicate n zero) src = src.
Proof.
  intros Hn. unfold slice.copy. rewrite length_replicate, Hn, Nat.min_id.
  rewrite take_ge by lia.
  rewrite drop_ge by (rewrite length_replicate; lia).
  apply app_nil_r.
Qed.

(** X17: for a For of [k] whole seconds and a positive interval the capacity is
    twice the quotient, or 10 when that is zero; it is never negative. *)
Lemma numBuckets_whole_seconds (alertRule : ngModels.AlertRule.t) (k : Z) :
  0 <= k < 2 ^ 53 →
  ngModels.AlertRule.For alertRule = k * time.Second →
  0 < ngModels.AlertRule.IntervalSeconds alertRule →
  let n := 2 * (k / ngModels.AlertRule.IntervalSeconds alertRule) in
  numBuckets alertRule = Some (if n =? 0 then 10 else n) ∧ 0 <= n.
Proof.
  intros Hk HFor HI n. subst n.
  assert (Hq : 0 <= k / ngModels.AlertRule.IntervalSeconds alertRule <= k).
  { split; [apply Z.div_pos; lia|].
    apply Z.div_le_upper_bound; [lia|]. nia. }
  split; [|lia].
  unfold numBuckets, int64.div. rewrite HFor.
  destruct (Seconds_whole k Hk) as [-> _].
  destruct (Z.eqb_spec (ngModels.AlertRule.IntervalSeconds alertRule) 0);
    [lia|].
  cbn. rewrite Z.quot_div_nonneg by lia.
  unfold int64.mul.
  rewrite (wrap_InRange (k / _))
    by (unfold int64.InRange, int64.min, int64.max; lia).
  rewrite wrap_InRange
    by (unfold int64.InRange, int64.min, int64.max; lia).
  reflexivity.
Qed.

(** C6 (amended): for a rule whose IntervalSeconds is not zero and whose
    capacity, 2 × (For.Seconds() / IntervalSeconds) as an integer with 10 in
    the place of zero, is not negative, TrimResults leaves a history shorter
    than the capacity as it is and replaces any other history by its last
    capacity entries, in their order; 15 entries with For = 5m and
    IntervalSeconds = 60, or with For = 0, are trimmed to the last 10.  With
    IntervalSeconds zero or a negative capacity the call panics. *)
Theorem TrimResults_spec (a : State.t) (alertRule : ngModels.AlertRule.t) :
  let len := Z.of_nat (length (State.Results a)) in
  let n :=
    int64.mul 2
      (int64.wrap
         (Z.quot
            (float64.to_int64
               (time.Seconds (ngModels.AlertRule.For alertRule)))
            (ngModels.AlertRule.IntervalSeconds alertRule))) in
  let capacity := if n =? 0 then 10 else n in
  (ngModels.AlertRule.IntervalSeconds alertRule ≠ 0 →
   0 <= capacity →
     numBuckets alertRule = Some capacity
     ∧ ∃ a', TrimResults a alertRule = Some a'
         ∧ (len < capacity → a' = a)
         ∧ (capacity <= len →
              a' = State.set_Results a
                     (drop (Z.to_nat (len - capacity)) (State.Results a))
              ∧ Z.of_nat (length (State.Results a')) = capacity
              ∧ ∃ oldest, State.Results a = oldest ++ State.Results a'))
  ∧ (ngModels.AlertRule.IntervalSeconds alertRule ≠ 0 →
     length (State.Results a) = 15%nat →
     (ngModels.AlertRule.For alertRule = 5 * time.Minute
      ∧ ngModels.AlertRule.IntervalSeconds alertRule = 60)
     ∨ ngModels.AlertRule.For alertRule = 0 →
       capacity = 10
       ∧ TrimResults a alertRule
         = Some (State.set_Results a (drop 5 (State.Results a))))
  ∧ (ngModels.AlertRule.IntervalSeconds alertRule = 0 ∨ capacity < 0 →
       TrimResults a alertRule = None).
Proof.
  intros len n capacity.
  assert (Hnb : ngModels.AlertRule.IntervalSeconds alertRule ≠ 0 →
                numBuckets alertRule = Some capacity).
  { intros HI. unfold numBuckets, int64.div.
    destruct (Z.eqb_spec (ngModels.AlertRule.IntervalSeconds alertRule) 0);
      [contradiction | reflexivity]. }
  assert (Hok : ngModels.AlertRule.IntervalSeconds alertRule ≠ 0 →
                0 <= capacity → capacity <= len →
                TrimResults a alertRule
                = Some (State.set_Results a
                          (drop (Z.to_nat (len - capacity))
                             (State.Results a)))).
  { intros HI Hc Hle. unfold TrimResults. rewrite (Hnb HI). cbn.
    fold len.
    destruct (Z.ltb_spec len capacity) as [?|_]; [lia|].
    unfold slice.make, slice.from. fold len.
    destruct (Z.ltb_spec capacity 0) as [?|_]; [lia|]. cbn.
    destruct (Z.ltb_spec (len - capacity) 0) as [?|_]; [lia|].
    destruct (Z.ltb_spec len (len - capacity)) as [?|_]; [lia|]. cbn.
    rewrite copy_full; [reflexivity|].
    rewrite length_drop. subst len. lia. }
  split; [|split].
  - intros HI Hc. split; [auto|].
    destruct (Z.lt_ge_cases len capacity) as [Hlt|Hge].
    + exists a. split; [|split; [reflexivity | lia]].
      unfold TrimResults. rewrite (Hnb HI). cbn. fold len.
      destruct (Z.ltb_spec len capacity); [reflexivity | lia].
    + eexists. split; [apply Hok; assumption|]. split; [lia|].
      intros _. split; [reflexivity|]. cbn. split.
      * rewrite length_drop. subst len. lia.
      * exists (take (Z.to_nat (len - capacity)) (State.Results a)).
        symmetry. apply take_drop.
  - intros HI H15 Hcase.
    assert (Hcap : capacity = 10).
    { subst capacity n. destruct Hcase as [[-> ->] | ->].
      - vm_compute. reflexivity.
      - change (float64.to_int64 (time.Seconds 0)) with 0.
        rewrite Z.quot_0_l by assumption. reflexivity. }
    split; [assumption|].
    rewrite Hok; [|assumption|lia|subst len; lia].
    rewrite Hcap. subst len. rewrite H15. reflexivity.
  - intros [HI | Hneg].
    + unfold TrimResults, numBuckets, int64.div. rewrite HI. reflexivity.
    + destruct (Z.eq_dec (ngModels.AlertRule.IntervalSeconds alertRule) 0)
        as [HI|HI].
      { unfold TrimResults, numBuckets, int64.div. rewrite HI. reflexivity. }
      unfold TrimResults. rewrite (Hnb HI). cbn. fold len.
      destruct (Z.ltb_spec len capacity) as [?|_]; [subst len; lia|].
      unfold slice.make.
      destruct (Z.ltb_spec capacity 0) as [_|?]; [reflexivity | lia].
Qed.

(** ** Equality *)





(** States whose StartsAt, EndsAt or LastEvaluationTime differ as values
    are not Equal, also when the two values denote the same instant in
    different locations. *)
Lemma Equals_compares_time_values (a b : State.t) :
  State.StartsAt a ≠ State.StartsAt b
  ∨ State.EndsAt a ≠ State.EndsAt b
  ∨ State.LastEvaluationTime a ≠ State.LastEvaluationTime b →
  Equals a b = false.
Proof.
  intros H. unfold Equals.
  destruct H as [H | [H | H]]; rewrite (bool_decide_eq_false_2 _ H);
    rewrite ?andb_false_r; reflexivity.
Qed.

(** * Instances *)

Example Seconds_5m : float64.to_int64 (time.Seconds (5 * time.Minute)) = 300.
Proof. vm_compute. reflexivity. Qed.

Example Seconds_truncates :
  float64.to_int64 (time.Seconds 2500000000) = 2
  ∧ float64.to_int64 (time.Seconds (-2500000000)) = -2.
Proof. split; vm_compute; reflexivity. Qed.

(** From 2^24 seconds on, a fraction one nanosecond short of a second is
    rounded up by the float64 addition of [Seconds]. *)
Example Seconds_rounds_up :
  float64.to_int64 (time.Seconds (16777216 * time.Second + 999999999))
  = 16777217.
Proof. vm_compute. reflexivity. Qed.

(** With a resend delay whose [Seconds()] rounds up, [ends] is the resend
    delay although the interval is the longer duration. *)
Example ends_after_rounding :
  let delay := 16777216 * time.Second + 999999999 in
  let alertRule := sample.rule (5 * time.Minute) 16777217 in
  ends delay alertRule = delay
  ∧ Z.max delay (int64.mul time.Second 16777217) = 16777217 * time.Second.
Proof. split; vm_compute; reflexivity. Qed.

(** The same instant in another location is another time value. *)
Example Equals_other_location :
  let a := sample.state eval.Alerting 100 280 in
  let b :=
    State.set_StartsAt a
      {| time.instant := State.StartsAt a; time.loc := time.Local |} in
  time.Equal (State.StartsAt a) (State.StartsAt b) = true
  ∧ Equals a b = false.
Proof. split; vm_compute; reflexivity. Qed.

Example String_sorted :
  data.String (data.assignAll [("b", "2"); ("a", "1"); ("c", "3")])
  = "a=1, b=2, c=3".
Proof. vm_compute. reflexivity. Qed.

(** An instance Pending since second 100, under a rule with For = 5m, is
    promoted by the Alerting result of second 401. *)
Lemma pending_promoted_witness :
  let a := sample.state eval.Pending 100 280 in
  let alertRule := sample.rule (5 * time.Minute) 60 in
  let result := sample.result eval.Alerting 401 None in
  State.State a = eval.Pending
  ∧ eval.Result.State result = eval.Alerting
  ∧ State.State (Transition sample.ResendDelay a alertRule result)
    = eval.Alerting.
Proof.
  intros a alertRule result.
  split; [reflexivity|]. split; [reflexivity|].
  destruct (pending_promoted_iff_For_exceeded sample.ResendDelay a alertRule
              result eq_refl eq_refl) as (_ & Hiff & _).
  apply Hiff. vm_compute. reflexivity.
Defined.

(** A Normal instance under a rule with For = 5m becomes Pending on its
    first Alerting result. *)
Lemma fresh_alert_witness :
  let a := sample.state eval.Normal 100 100 in
  let alertRule := sample.rule (5 * time.Minute) 60 in
  let result := sample.result eval.Alerting 160 None in
  State.State a ≠ eval.Alerting
  ∧ State.State a ≠ eval.Pending
  ∧ eval.Result.State result = eval.Alerting
  ∧ State.State (Transition sample.ResendDelay a alertRule result)
    = eval.Pending.
Proof.
  intros a alertRule result.
  assert (Hna : State.State a ≠ eval.Alerting) by discriminate.
  assert (Hnp : State.State a ≠ eval.Pending) by discriminate.
  split; [exact Hna|]. split; [exact Hnp|]. split; [reflexivity|].
  destruct (fresh_alert_starts_run sample.ResendDelay a alertRule result
              Hna Hnp eq_refl) as (_ & _ & _ & _ & Hpending).
  apply Hpending. vm_compute. reflexivity.
Defined.

(** A Normal result does not clear the error in every case (C4, without
    its amendment): a Normal result that carries an error leaves that error
    in the state. *)
Lemma normal_result_keeps_result_error :
  let a := sample.state eval.Alerting 100 280 in
  let alertRule := sample.rule (5 * time.Minute) 60 in
  let result := sample.result eval.Normal 160 (sample.queryFailure "A") in
  eval.Result.State result = eval.Normal
  ∧ State.Error (Transition sample.ResendDelay a alertRule result)
    = sample.queryFailure "A"
  ∧ State.Error (Transition sample.ResendDelay a alertRule result) ≠ None.
Proof.
  intros a alertRule result.
  split; [reflexivity|]. split; [reflexivity | discriminate].
Qed.

(** An Alerting instance returns to Normal at second 160. *)
Lemma normal_result_witness :
  let a := sample.state eval.Alerting 100 280 in
  let alertRule := sample.rule (5 * time.Minute) 60 in
  let result := sample.result eval.Normal 160 None in
  eval.Result.State result = eval.Normal
  ∧ State.State a ≠ eval.Normal
  ∧ State.StartsAt (Transition sample.ResendDelay a alertRule result)
    = sample.at_second 160
  ∧ State.EndsAt (Transition sample.ResendDelay a alertRule result)
    = sample.at_second 160.
Proof.
  intros a alertRule result.
  assert (Hn : State.State a ≠ eval.Normal) by discriminate.
  split; [reflexivity|]. split; [exact Hn|].
  destruct (normal_result_resets sample.ResendDelay a alertRule result
              eq_refl) as (_ & _ & _ & _ & Hreset & _).
  exact (Hreset Hn).
Defined.

(** Not every Alerting result refreshes EndsAt (C3, without its
    restriction): the Alerting result of second 160 leaves the instance
    Pending since second 100 (For = 5m) with the EndsAt it had,
    second 280, not second 160 + 3 × 60; and with an interval of 9223372037
    seconds, which no Duration holds, [ends] is not the larger of the two
    durations. *)
Lemma EndsAt_kept_while_pending :
  let a := sample.state eval.Pending 100 280 in
  let alertRule := sample.rule (5 * time.Minute) 60 in
  let result := sample.result eval.Alerting 160 None in
  let window (alertRule : ngModels.AlertRule.t) :=
    int64.mul
      (Z.max sample.ResendDelay
         (int64.mul time.Second
            (ngModels.AlertRule.IntervalSeconds alertRule)))
      3 in
  (eval.Result.State result = eval.Alerting
   ∧ State.EndsAt (Transition sample.ResendDelay a alertRule result)
     = sample.at_second 280
   ∧ time.Add (eval.Result.EvaluatedAt result) (window alertRule)
     = sample.at_second 340
   ∧ State.EndsAt (Transition sample.ResendDelay a alertRule result)
     ≠ time.Add (eval.Result.EvaluatedAt result) (window alertRule))
  ∧ (let a := sample.state eval.Normal 100 100 in
     let alertRule := sample.rule (5 * time.Minute) 9223372037 in
     State.EndsAt (Transition sample.ResendDelay a alertRule result)
     ≠ time.Add (eval.Result.EvaluatedAt result) (window alertRule)).
Proof.
  repeat split; try (vm_compute; reflexivity); vm_compute; discriminate.
Qed.

(** With the resend delay of 30 seconds and an interval of 60 seconds, the
    Error result of second 160 sets EndsAt to second 160 + 3 × 60. *)
Lemma EndsAt_refreshed_witness :
  let a := sample.state eval.Normal 100 100 in
  let alertRule := sample.rule (5 * time.Minute) 60 in
  let result := sample.result eval.Error 160 (sample.queryFailure "A") in
  0 <= sample.ResendDelay
  ∧ float64.to_int64 (time.Seconds sample.ResendDelay)
    = Z.quot sample.ResendDelay time.Second
  ∧ int64.InRange
      (time.Second * ngModels.AlertRule.IntervalSeconds alertRule)
  ∧ eval.Result.State result = eval.Error
  ∧ State.EndsAt (Transition sample.ResendDelay a alertRule result)
    = sample.at_second 340.
Proof.
  intros a alertRule result.
  assert (H0 : 0 <= sample.ResendDelay) by (vm_compute; discriminate).
  assert (Hs : float64.to_int64 (time.Seconds sample.ResendDelay)
               = Z.quot sample.ResendDelay time.Second)
    by (vm_compute; reflexivity).
  assert (Hr : int64.InRange
                 (time.Second * ngModels.AlertRule.IntervalSeconds alertRule))
    by (split; vm_compute; discriminate).
  split; [exact H0|]. split; [exact Hs|]. split; [exact Hr|].
  split; [reflexivity|].
  assert (Hres : eval.Result.State result = eval.Alerting
                 ∨ eval.Result.State result = eval.Error
                 ∨ eval.Result.State result = eval.NoData)
    by (right; left; reflexivity).
  destruct (EndsAt_refreshed sample.ResendDelay H0 Hs a alertRule result
              Hr Hres) as [Hrefresh _].
  rewrite Hrefresh; [vm_compute; reflexivity|].
  intros (Hal & _). discriminate Hal.
Defined.

(** The failure of query A under a rule that defines A on ds1. *)
Lemma query_error_witness :
  let a := sample.state eval.Normal 100 100 in
  let alertRule := sample.rule (5 * time.Minute) 60 in
  let result := sample.result eval.Error 160 (sample.queryFailure "A") in
  let a' := Transition sample.ResendDelay a alertRule result in
  eval.Result.State result = eval.Error
  ∧ ngModels.AlertRule.ExecErrState alertRule = ngModels.ErrorErrState
  ∧ State.State a' = eval.Error
  ∧ State.Labels a' !! "ref_id" = Some "A"
  ∧ State.Annotations a' !! "Error" = Some "boom".
Proof.
  intros a alertRule result a'.
  split; [reflexivity|]. split; [reflexivity|].
  assert (Hex : ∃ d, d ∈ ngModels.AlertRule.Data alertRule
                     ∧ ngModels.AlertQuery.RefID d
                       = expr.RefID
                           {| expr.RefID := "A"; expr.Message := "boom" |}).
  { exists sample.queryA. split; [left | reflexivity]. }
  destruct (query_error_enriches sample.ResendDelay a alertRule result
              {| expr.RefID := "A"; expr.Message := "boom" |}
              eq_refl eq_refl eq_refl Hex) as (_ & Hst & Href & _ & Hann).
  split; [exact Hst|]. split; [exact Href | exact Hann].
Defined.

(** An unmatched reference does not leave both mappings as they were (C8,
    without its amendment): the failure of query B, which the rule does not
    define, leaves the labels as they were but sets the annotation Error. *)
Lemma unmatched_query_error_changes_annotations :
  let a := sample.state eval.Normal 100 100 in
  let alertRule := sample.rule (5 * time.Minute) 60 in
  let result := sample.result eval.Error 160 (sample.queryFailure "B") in
  let a' := Transition sample.ResendDelay a alertRule result in
  eval.Result.State result = eval.Error
  ∧ ngModels.AlertRule.ExecErrState alertRule = ngModels.ErrorErrState
  ∧ (∀ d, d ∈ ngModels.AlertRule.Data alertRule →
          ngModels.AlertQuery.RefID d ≠ "B")
  ∧ State.Labels a' = State.Labels a
  ∧ State.Annotations a !! "Error" = None
  ∧ State.Annotations a' !! "Error" = Some "boom"
  ∧ ¬ (State.Labels a' = State.Labels a
       ∧ State.Annotations a' = State.Annotations a).
Proof.
  intros a alertRule result a'.
  split; [reflexivity|]. split; [reflexivity|].
  split.
  { intros d Hd. apply list_elem_of_singleton in Hd as ->. discriminate. }
  split; [reflexivity|]. split; [reflexivity|].
  split; [vm_compute; reflexivity|].
  intros [_ Hann].
  assert (H : State.Annotations a' !! "Error" = State.Annotations a !! "Error")
    by (rewrite Hann; reflexivity).
  vm_compute in H. discriminate H.
Qed.

(** The failure of query B under a rule that defines only A. *)
Lemma unmatched_query_error_witness :
  let a := sample.state eval.Normal 100 100 in
  let alertRule := sample.rule (5 * time.Minute) 60 in
  let result := sample.result eval.Error 160 (sample.queryFailure "B") in
  let a' := Transition sample.ResendDelay a alertRule result in
  eval.Result.State result = eval.Error
  ∧ ngModels.AlertRule.ExecErrState alertRule = ngModels.ErrorErrState
  ∧ State.Labels a' = State.Labels a
  ∧ State.Annotations a' = <["Error" := "boom"]> (State.Annotations a).
Proof.
  intros a alertRule result a'.
  split; [reflexivity|]. split; [reflexivity|].
  assert (Hno : ∀ d, d ∈ ngModels.AlertRule.Data alertRule →
                  ngModels.AlertQuery.RefID d
                  ≠ expr.RefID {| expr.RefID := "B"; expr.Message := "boom" |}).
  { intros d Hd. apply list_elem_of_singleton in Hd as ->. discriminate. }
  destruct (unmatched_query_error_annotates sample.ResendDelay a alertRule
              result {| expr.RefID := "B"; expr.Message := "boom" |}
              eq_refl eq_refl eq_refl Hno) as (_ & _ & Hl & Hann & _).
  split; [exact Hl | exact Hann].
Defined.

(** An Alerting instance that was never announced needs sending. *)
Lemma NeedsSending_witness :
  let a := sample.state eval.Alerting 100 280 in
  State.State a ≠ eval.Pending
  ∧ ¬ (State.State a = eval.Normal ∧ State.Resolved a = false)
  ∧ time.Add (State.LastSentAt a) sample.ResendDelay
    <= State.LastEvaluationTime a
  ∧ NeedsSending a sample.ResendDelay = true.
Proof.
  intros a.
  assert (Hnp : State.State a ≠ eval.Pending) by discriminate.
  assert (Hnn : ¬ (State.State a = eval.Normal ∧ State.Resolved a = false))
    by (intros [Hn _]; discriminate Hn).
  assert (Hle : time.Add (State.LastSentAt a) sample.ResendDelay
                <= State.LastEvaluationTime a)
    by (vm_compute; discriminate).
  split; [exact Hnp|]. split; [exact Hnn|]. split; [exact Hle|].
  destruct (NeedsSending_spec a sample.ResendDelay) as (_ & _ & Hother).
  destruct (Hother Hnp Hnn) as [Hiff _].
  apply Hiff. exact Hle.
Defined.

(** TrimResults does not return on every rule (C6, without its
    restriction): with IntervalSeconds = 0 the division of TrimResults
    panics, also when For = 0, and with a negative For the
    capacity is negative and the allocation of the new history panics; in
    neither case is the history of 15 entries trimmed to its last 10. *)
Lemma TrimResults_panics :
  let a := sample.state eval.Normal 100 100 in
  length (State.Results a) = 15%nat
  ∧ TrimResults a (sample.rule 0 0) = None
  ∧ ¬ (∃ a', TrimResults a (sample.rule 0 0) = Some a'
             ∧ State.Results a' = drop 5 (State.Results a))
  ∧ numBuckets (sample.rule (- time.Minute) 60) = Some (-2)
  ∧ TrimResults a (sample.rule (- time.Minute) 60) = None.
Proof.
  intros a. split; [reflexivity|]. split; [vm_compute; reflexivity|].
  split; [|split; vm_compute; reflexivity].
  intros (a' & Ha' & _). vm_compute in Ha'. discriminate Ha'.
Qed.

(** A history of 15 entries under For = 5m and IntervalSeconds = 60 is
    trimmed to the entries of the seconds 6 to 15. *)
Lemma TrimResults_witness :
  let a := sample.state eval.Normal 100 100 in
  let alertRule := sample.rule (5 * time.Minute) 60 in
  ngModels.AlertRule.IntervalSeconds alertRule ≠ 0
  ∧ length (State.Results a) = 15%nat
  ∧ TrimResults a alertRule
    = Some (State.set_Results a (sample.evaluation <$> seqZ 6 10)).
Proof.
  intros a alertRule.
  assert (HI : ngModels.AlertRule.IntervalSeconds alertRule ≠ 0)
    by discriminate.
  split; [exact HI|]. split; [reflexivity|].
  destruct (TrimResults_spec a alertRule) as (_ & Hex & _).
  destruct (Hex HI eq_refl (or_introl (conj eq_refl eq_refl))) as [_ Htrim].
  exact Htrim.
Defined.


(** An Error result changes neither the identity nor the bookkeeping of the
    instance. *)
Lemma Transition_frame_witness :
  let a := sample.state eval.Normal 100 100 in
  let alertRule := sample.rule (5 * time.Minute) 60 in
  let result := sample.result eval.Error 160 (sample.queryFailure "A") in
  State.Results (Transition sample.ResendDelay a alertRule result)
  = sample.history 15.
Proof.
  intros a alertRule result.
  destruct (Transition_frame sample.ResendDelay a alertRule result)
    as (_ & _ & _ & _ & _ & Hresults & _).
  exact Hresults.
Defined.

(** * Further properties of the transitions *)

(** The loop over the definitions assigns the two labels of the failing
    query and no other. *)
Lemma labelFailedQuery_other labels Data queryError (k : string) :
  k ≠ "ref_id" → k ≠ "datasource_uid" →
  labelFailedQuery labels Data queryError !! k = labels !! k.
Proof.
  intros Hr Hd. induction Data as [|next Data IH]; cbn; [reflexivity|].
  case_bool_decide; [|assumption].
  rewrite !lookup_insert_ne by congruence. reflexivity.
Qed.

(** Running the loop on its own result changes nothing. *)
Lemma labelFailedQuery_twice labels Data queryError :
  labelFailedQuery (labelFailedQuery labels Data queryError) Data queryError
  = labelFailedQuery labels Data queryError.
Proof.
  induction Data as [|next Data IH]; cbn; [reflexivity|].
  case_bool_decide; [|assumption].
  apply map_eq. intros k. rewrite !lookup_insert.
  repeat case_decide; reflexivity.
Qed.

Section TransitionFurther.

Variable ResendDelay : time.Duration.

(** The query error that a transition enriches the mappings with, if any:
    the one of an Error result under a rule that maps errors to Error. *)
Lemma Transition_mappings
    (a : State.t) (alertRule : ngModels.AlertRule.t) (result : eval.Result.t) :
  let a' := Transition ResendDelay a alertRule result in
  let enriching :=
    if bool_decide (eval.Result.State result = eval.Error
                    ∧ ngModels.AlertRule.ExecErrState alertRule
                      = ngModels.ErrorErrState)
    then errors.As (eval.Result.Error result) else None in
  State.Labels a'
  = match enriching with
    | Some queryError =>
        labelFailedQuery (State.Labels a)
          (ngModels.AlertRule.Data alertRule) queryError
    | None => State.Labels a
    end
  ∧ State.Annotations a'
    = match enriching with
      | Some queryError =>
          <["Error" := expr.Error queryError]> (State.Annotations a)
      | None => State.Annotations a
      end.
Proof.
  intros a' enriching. subst a' enriching. unfold Transition.
  destruct (eval.Result.State result) eqn:Hres.
  - rewrite bool_decide_eq_false_2 by (intros [? _]; discriminate).
    unfold resultNormal. cbn. case_bool_decide; split; reflexivity.
  - rewrite bool_decide_eq_false_2 by (intros [? _]; discriminate).
    unfold resultAlerting. cbn.
    destruct (State.State a); cbn;
      repeat match goal with |- context [if ?b then _ else _] =>
               destruct b; cbn end;
      split; reflexivity.
  - rewrite bool_decide_eq_false_2 by (intros [? _]; discriminate).
    split; reflexivity.
  - rewrite bool_decide_eq_false_2 by (intros [? _]; discriminate).
    unfold resultNoData. cbn.
    destruct (time.IsZero (State.StartsAt a));
      destruct (ngModels.AlertRule.NoDataState alertRule); split; reflexivity.
  - unfold resultError. cbn.
    destruct (ngModels.AlertRule.ExecErrState alertRule) eqn:Hexec.
    + rewrite (bool_decide_eq_false_2 (_ ∧ _))
        by (intros [_ ?]; discriminate).
      destruct (time.IsZero (State.StartsAt a)); split; reflexivity.
    + rewrite (bool_decide_eq_true_2 (_ ∧ _)) by (split; reflexivity).
      destruct (time.IsZero (State.StartsAt a)); cbn;
        destruct (errors.As (eval.Result.Error result)); split; reflexivity.
Qed.

(** X1: only an Error result, under a rule that maps errors to the Error state,
    whose error carries a query error, changes the labels or the
    annotations. *)
Theorem mappings_change_only_on_query_error
    (a : State.t) (alertRule : ngModels.AlertRule.t) (result : eval.Result.t) :
  ¬ (eval.Result.State result = eval.Error
     ∧ ngModels.AlertRule.ExecErrState alertRule = ngModels.ErrorErrState
     ∧ is_Some (errors.As (eval.Result.Error result))) →
  let a' := Transition ResendDelay a alertRule result in
  State.Labels a' = State.Labels a
  ∧ State.Annotations a' = State.Annotations a.
Proof.
  intros Hno a'. subst a'.
  destruct (Transition_mappings a alertRule result) as [HL HA].
  rewrite HL, HA. case_bool_decide as Hc; [|split; reflexivity].
  destruct (errors.As (eval.Result.Error result)) eqn:Has;
    [|split; reflexivity].
  exfalso. apply Hno. destruct Hc. repeat split; eauto.
Qed.

(** X2: no transition touches a label other than ref_id and datasource_uid, or
    an annotation other than Error. *)
Theorem other_entries_preserved
    (a : State.t) (alertRule : ngModels.AlertRule.t) (result : eval.Result.t)
    (k : string) :
  let a' := Transition ResendDelay a alertRule result in
  (k ≠ "ref_id" → k ≠ "datasource_uid" →
     State.Labels a' !! k = State.Labels a !! k)
  ∧ (k ≠ "Error" → State.Annotations a' !! k = State.Annotations a !! k).
Proof.
  intros a'. subst a'.
  destruct (Transition_mappings a alertRule result) as [HL HA].
  rewrite HL, HA. case_bool_decide; [|split; reflexivity].
  destruct (errors.As (eval.Result.Error result)); [|split; reflexivity].
  split; [intros; apply labelFailedQuery_other; assumption|].
  intros. apply lookup_insert_ne. congruence.
Qed.

(** X3: an Error or NoData result keeps a StartsAt that is set and gives an
    instance without one the evaluation timestamp; the state it leads to is
    the one the rule's policy names. *)
Theorem Error_NoData_policy
    (a : State.t) (alertRule : ngModels.AlertRule.t) (result : eval.Result.t) :
  eval.Result.State result = eval.Error
  ∨ eval.Result.State result = eval.NoData →
  let a' := Transition ResendDelay a alertRule result in
  ((State.StartsAt a : Z) ≠ time.zero → State.StartsAt a' = State.StartsAt a)
  ∧ ((State.StartsAt a : Z) = time.zero →
       State.StartsAt a' = eval.Result.EvaluatedAt result)
  ∧ State.Error a' = eval.Result.Error result
  ∧ (eval.Result.State result = eval.Error →
       State.State a'
       = match ngModels.AlertRule.ExecErrState alertRule with
         | ngModels.AlertingErrState => eval.Alerting
         | ngModels.ErrorErrState => eval.Error
         end)
  ∧ (eval.Result.State result = eval.NoData →
       State.State a'
       = match ngModels.AlertRule.NoDataState alertRule with
         | ngModels.Alerting => eval.Alerting
         | ngModels.NoData => eval.NoData
         | ngModels.OK => eval.Normal
         end).
Proof.
  intros Hres a'. subst a'. unfold Transition.
  change (time.instant time.zero) with 0.
  destruct Hres as [Hres | Hres]; rewrite Hres.
  - unfold resultError, time.IsZero. cbn.
    destruct (Z.eqb_spec (State.StartsAt a) 0) as [Hz|Hz];
      destruct (ngModels.AlertRule.ExecErrState alertRule); cbn;
      try destruct (errors.As (eval.Result.Error result)); cbn;
      repeat split; intros; congruence.
  - unfold resultNoData, time.IsZero. cbn.
    destruct (Z.eqb_spec (State.StartsAt a) 0) as [Hz|Hz];
      destruct (ngModels.AlertRule.NoDataState alertRule); cbn;
      repeat split; intros; congruence.
Qed.

(** X4: an instance becomes Pending only through an Alerting result, under a
    positive For, from a state that was not Alerting; its run then starts at
    the evaluation timestamp. *)
Theorem Pending_entered_by_alert
    (a : State.t) (alertRule : ngModels.AlertRule.t) (result : eval.Result.t) :
  State.State a ≠ eval.Pending →
  State.State (Transition ResendDelay a alertRule result) = eval.Pending →
  eval.Result.State result = eval.Alerting
  ∧ 0 < ngModels.AlertRule.For alertRule
  ∧ State.State a ≠ eval.Alerting
  ∧ State.StartsAt (Transition ResendDelay a alertRule result)
    = eval.Result.EvaluatedAt result.
Proof.
  intros Hnp. unfold Transition.
  destruct (eval.Result.State result) eqn:Hres.
  - unfold resultNormal. cbn. discriminate.
  - unfold resultAlerting. cbn.
    destruct (Z.gtb_spec (ngModels.AlertRule.For alertRule) 0);
      destruct (State.State a) eqn:Hst; cbn; try congruence;
      intros _; repeat split; try lia; discriminate.
  - contradiction.
  - unfold resultNoData. cbn.
    destruct (ngModels.AlertRule.NoDataState alertRule); cbn; discriminate.
  - unfold resultError. cbn.
    destruct (ngModels.AlertRule.ExecErrState alertRule); cbn;
      try destruct (errors.As _); cbn; discriminate.
Qed.

End TransitionFurther.

Section Duplicates.

Variable ResendDelay : time.Duration.

(** The fields of the state after [resultError]. *)
Lemma resultError_fields
    (a : State.t) (alertRule : ngModels.AlertRule.t) (result : eval.Result.t) :
  resultError ResendDelay a alertRule result
  = let enriching :=
      match ngModels.AlertRule.ExecErrState alertRule with
      | ngModels.ErrorErrState => errors.As (eval.Result.Error result)
      | ngModels.AlertingErrState => None
      end in
    {| State.AlertRuleUID := State.AlertRuleUID a;
       State.OrgID := State.OrgID a;
       State.CacheId := State.CacheId a;
       State.State :=
         match ngModels.AlertRule.ExecErrState alertRule with
         | ngModels.AlertingErrState => eval.Alerting
         | ngModels.ErrorErrState => eval.Error
         end;
       State.Resolved := State.Resolved a;
       State.Results := State.Results a;
       State.StartsAt :=
         if time.IsZero (State.StartsAt a)
         then eval.Result.EvaluatedAt result else State.StartsAt a;
       State.EndsAt :=
         time.Add (eval.Result.EvaluatedAt result)
           (int64.mul (ends ResendDelay alertRule) 3);
       State.LastEvaluationTime := State.LastEvaluationTime a;
       State.EvaluationDuration := State.EvaluationDuration a;
       State.LastSentAt := State.LastSentAt a;
       State.Annotations :=
         match enriching with
         | Some queryError =>
             <["Error" := expr.Error queryError]> (State.Annotations a)
         | None => State.Annotations a
         end;
       State.Labels :=
         match enriching with
         | Some queryError =>
             labelFailedQuery (State.Labels a)
               (ngModels.AlertRule.Data alertRule) queryError
         | None => State.Labels a
         end;
       State.Error := eval.Result.Error result |}.
Proof.
  unfold resultError, setEndsAt.
  destruct (ngModels.AlertRule.ExecErrState alertRule).
  - change (bool_decide (ngModels.AlertingErrState
                         = ngModels.AlertingErrState)) with true.
    cbn. destruct (time.IsZero (State.StartsAt a)); reflexivity.
  - change (bool_decide (ngModels.ErrorErrState
                         = ngModels.AlertingErrState)) with false.
    change (bool_decide (ngModels.ErrorErrState
                         = ngModels.ErrorErrState)) with true.
    cbn. destruct (time.IsZero (State.StartsAt a)); cbn;
      destruct (errors.As (eval.Result.Error result)); reflexivity.
Qed.

(** X5: applying the same result a second time changes nothing: the state after
    a duplicate of a result is the state after the result. *)
Theorem Transition_duplicate
    (a : State.t) (alertRule : ngModels.AlertRule.t) (result : eval.Result.t) :
  Transition ResendDelay (Transition ResendDelay a alertRule result)
    alertRule result
  = Transition ResendDelay a alertRule result.
Proof.
  destruct a as [uid org cid st res hist starts ends_ lastEval dur sent ann lab err].
  unfold Transition. destruct (eval.Result.State result) eqn:Hres.
  - unfold resultNormal. cbn.
    destruct st; cbn; reflexivity.
  - unfold resultAlerting, setEndsAt. cbn.
    destruct st; cbn.
    + destruct (Z.gtb_spec (ngModels.AlertRule.For alertRule) 0); cbn.
      * rewrite Sub_diag.
        destruct (Z.gtb_spec 0 (ngModels.AlertRule.For alertRule));
          [lia | reflexivity].
      * reflexivity.
    + reflexivity.
    + destruct (time.Sub (eval.Result.EvaluatedAt result) starts
                >? ngModels.AlertRule.For alertRule) eqn:Hgt; cbn.
      * reflexivity.
      * rewrite Hgt. reflexivity.
    + destruct (Z.gtb_spec (ngModels.AlertRule.For alertRule) 0); cbn.
      * rewrite Sub_diag.
        destruct (Z.gtb_spec 0 (ngModels.AlertRule.For alertRule));
          [lia | reflexivity].
      * reflexivity.
    + destruct (Z.gtb_spec (ngModels.AlertRule.For alertRule) 0); cbn.
      * rewrite Sub_diag.
        destruct (Z.gtb_spec 0 (ngModels.AlertRule.For alertRule));
          [lia | reflexivity].
      * reflexivity.
  - reflexivity.
  - unfold resultNoData, setEndsAt, time.IsZero. cbn.
    destruct (Z.eqb_spec starts 0) as [Hz|Hz]; cbn;
      destruct (ngModels.AlertRule.NoDataState alertRule); cbn;
      try (destruct (Z.eqb_spec starts 0); [contradiction | reflexivity]);
      destruct (eval.Result.EvaluatedAt result =? 0); reflexivity.
  - rewrite (resultError_fields (resultError _ _ _ _)), resultError_fields.
    cbn. f_equal.
    + unfold time.IsZero.
      destruct (Z.eqb_spec starts 0) as [Hz|Hz];
        [destruct (eval.Result.EvaluatedAt result =? 0); reflexivity|].
      destruct (Z.eqb_spec starts 0); [contradiction | reflexivity].
    + destruct (ngModels.AlertRule.ExecErrState alertRule); [reflexivity|].
      destruct (errors.As (eval.Result.Error result)); [|reflexivity].
      apply insert_insert_eq.
    + destruct (ngModels.AlertRule.ExecErrState alertRule); [reflexivity|].
      destruct (errors.As (eval.Result.Error result)); [|reflexivity].
      apply labelFailedQuery_twice.
Qed.

(** X6: transitions keep StartsAt before or at EndsAt, when the result is not
    older than the start of the run and the auto-resolve window is not
    negative. *)
Theorem StartsAt_le_EndsAt_preserved
    (a : State.t) (alertRule : ngModels.AlertRule.t) (result : eval.Result.t) :
  State.StartsAt a <= State.EndsAt a →
  State.StartsAt a <= eval.Result.EvaluatedAt result →
  0 <= int64.mul (ends ResendDelay alertRule) 3 →
  let a' := Transition ResendDelay a alertRule result in
  State.StartsAt a' <= State.EndsAt a'.
Proof.
  intros Hinv Hord Hwin a'. subst a'. unfold Transition.
  destruct (eval.Result.State result).
  - unfold resultNormal. cbn. case_bool_decide; cbn; lia.
  - unfold resultAlerting, setEndsAt, time.Add. cbn.
    destruct (State.State a); cbn;
      repeat match goal with |- context [if ?b then _ else _] =>
               destruct b; cbn end; lia.
  - assumption.
  - unfold resultNoData, setEndsAt, time.Add. cbn.
    destruct (time.IsZero (State.StartsAt a));
      destruct (ngModels.AlertRule.NoDataState alertRule); cbn; lia.
  - rewrite resultError_fields. cbn. unfold time.Add.
    destruct (time.IsZero (State.StartsAt a)); lia.
Qed.

Variable alertRule : ngModels.AlertRule.t.

(** X7: along Alerting results an Alerting instance stays Alerting and keeps the
    StartsAt of its run. *)
Theorem alerting_run_continues (results : list eval.Result.t) :
  ∀ a : State.t,
    State.State a = eval.Alerting →
    Forall (λ r, eval.Result.State r = eval.Alerting) results →
    let a' := TransitionAll ResendDelay a alertRule results in
    State.State a' = eval.Alerting ∧ State.StartsAt a' = State.StartsAt a.
Proof.
  induction results as [|r results IH]; intros a Hst Hall; [split; auto|].
  apply Forall_cons in Hall as [Hr Hall].
  change (TransitionAll ResendDelay a alertRule (r :: results))
    with (TransitionAll ResendDelay
            (Transition ResendDelay a alertRule r) alertRule results).
  assert (Hstep : State.State (Transition ResendDelay a alertRule r)
                  = eval.Alerting
                  ∧ State.StartsAt (Transition ResendDelay a alertRule r)
                    = State.StartsAt a).
  { unfold Transition, resultAlerting. rewrite Hr. cbn. rewrite Hst. cbn.
    split; [assumption | reflexivity]. }
  destruct Hstep as [Hst' Hs'].
  destruct (IH _ Hst' Hall) as [H1 H2]. cbn zeta in *.
  split; [assumption | congruence].
Qed.

(** X8: along Normal results the instance is Normal, with StartsAt and EndsAt at
    the timestamp of the first result of the run when it was not Normal
    before, and with the StartsAt and EndsAt it had when it was. *)
Theorem normal_run (a : State.t) (first : eval.Result.t)
    (results : list eval.Result.t) :
  Forall (λ r, eval.Result.State r = eval.Normal) (first :: results) →
  let a' := TransitionAll ResendDelay a alertRule (first :: results) in
  State.State a' = eval.Normal
  ∧ (State.State a ≠ eval.Normal →
       State.StartsAt a' = eval.Result.EvaluatedAt first
       ∧ State.EndsAt a' = eval.Result.EvaluatedAt first)
  ∧ (State.State a = eval.Normal →
       State.StartsAt a' = State.StartsAt a
       ∧ State.EndsAt a' = State.EndsAt a).
Proof.
  intros Hall a'. subst a'.
  assert (Hkeep : ∀ (rs : list eval.Result.t) (b : State.t),
            State.State b = eval.Normal →
            Forall (λ r, eval.Result.State r = eval.Normal) rs →
            State.State (TransitionAll ResendDelay b alertRule rs)
            = eval.Normal
            ∧ State.StartsAt (TransitionAll ResendDelay b alertRule rs)
              = State.StartsAt b
            ∧ State.EndsAt (TransitionAll ResendDelay b alertRule rs)
              = State.EndsAt b).
  { induction rs as [|r rs IH]; intros b Hb Hrs; [repeat split; auto|].
    apply Forall_cons in Hrs as [Hr Hrs].
    change (TransitionAll ResendDelay b alertRule (r :: rs))
      with (TransitionAll ResendDelay
              (Transition ResendDelay b alertRule r) alertRule rs).
    assert (Hstep : State.State (Transition ResendDelay b alertRule r)
                    = eval.Normal
                    ∧ State.StartsAt (Transition ResendDelay b alertRule r)
                      = State.StartsAt b
                    ∧ State.EndsAt (Transition ResendDelay b alertRule r)
                      = State.EndsAt b).
    { unfold Transition, resultNormal. rewrite Hr. cbn.
      rewrite bool_decide_eq_false_2 by congruence. repeat split. }
    destruct Hstep as (H1 & H2 & H3).
    destruct (IH _ H1 Hrs) as (? & ? & ?). repeat split; congruence. }
  apply Forall_cons in Hall as [Hfirst Hall].
  change (TransitionAll ResendDelay a alertRule (first :: results))
    with (TransitionAll ResendDelay
            (Transition ResendDelay a alertRule first) alertRule results).
  assert (Hn : State.State (Transition ResendDelay a alertRule first)
               = eval.Normal).
  { unfold Transition, resultNormal. rewrite Hfirst. reflexivity. }
  destruct (Hkeep results _ Hn Hall) as (H1 & H2 & H3).
  rewrite H2, H3. split; [assumption|].
  unfold Transition, resultNormal. rewrite Hfirst. cbn.
  case_bool_decide; cbn; split; intros; try congruence; split; reflexivity.
Qed.

End Duplicates.

(** * Further properties of the window, the resend policy and equality *)

Section WindowBounds.

Variable ResendDelay : time.Duration.
Hypothesis ResendDelay_nonneg : 0 <= ResendDelay.
Hypothesis ResendDelay_Seconds :
  float64.to_int64 (time.Seconds ResendDelay) = Z.quot ResendDelay time.Second.

(** X10: when three times the longer of the resend delay and the interval fits a
    Duration, [setEndsAt] puts EndsAt at least three resend delays and at
    least three intervals after the evaluation timestamp, and leaves
    StartsAt and the state as they were. *)
Theorem setEndsAt_window_bounds
    (a : State.t) (alertRule : ngModels.AlertRule.t) (result : eval.Result.t) :
  int64.InRange (time.Second * ngModels.AlertRule.IntervalSeconds alertRule) →
  int64.InRange
    (3 * Z.max ResendDelay
           (time.Second * ngModels.AlertRule.IntervalSeconds alertRule)) →
  let a' := setEndsAt ResendDelay a alertRule result in
  eval.Result.EvaluatedAt result + 3 * ResendDelay <= State.EndsAt a'
  ∧ eval.Result.EvaluatedAt result
    + 3 * (time.Second * ngModels.AlertRule.IntervalSeconds alertRule)
    <= State.EndsAt a'
  ∧ State.StartsAt a' = State.StartsAt a
  ∧ State.State a' = State.State a.
Proof.
  intros Hr H3 a'. subst a'. unfold setEndsAt. cbn.
  rewrite (ends_max ResendDelay ResendDelay_nonneg ResendDelay_Seconds _ Hr).
  unfold int64.mul. rewrite (wrap_InRange _ Hr).
  rewrite (Z.mul_comm _ 3), (wrap_InRange _ H3).
  unfold time.Add. repeat split; lia.
Qed.

End WindowBounds.

(** X11: A shorter resend delay never suppresses a notification that a longer
    one lets through; and right after a dispatch, when LastSentAt is the
    time of the last evaluation, a positive delay suppresses it. *)
Theorem NeedsSending_delay (a : State.t) (resendDelay : time.Duration) :
  (∀ shorter, shorter <= resendDelay →
     NeedsSending a resendDelay = true → NeedsSending a shorter = true)
  ∧ ((State.LastSentAt a : Z) = State.LastEvaluationTime a →
     0 < resendDelay →
       NeedsSending a resendDelay = false).
Proof.
  unfold NeedsSending, time.Before, time.Equal, time.Add. cbn. split.
  - intros shorter Hle.
    destruct (bool_decide (State.State a = eval.Pending)
              || bool_decide (State.State a = eval.Normal)
                 && negb (State.Resolved a)); [discriminate|].
    intros H. apply orb_true_iff in H. apply orb_true_iff.
    rewrite Z.ltb_lt, Z.eqb_eq in *. lia.
  - intros Heq Hpos.
    destruct (bool_decide (State.State a = eval.Pending)
              || bool_decide (State.State a = eval.Normal)
                 && negb (State.Resolved a)); [reflexivity|].
    apply orb_false_iff. rewrite Z.ltb_ge, Z.eqb_neq. lia.
Qed.

(** The textual form tells the categorical states apart. *)
Lemma State_String_inj (s1 s2 : eval.State) :
  eval.String s1 = eval.String s2 → s1 = s2.
Proof. destruct s1, s2; cbn; intros H; congruence. Qed.

(** [Equals] holds exactly when the nine compared values agree. *)
Lemma Equals_true_iff (a b : State.t) :
  Equals a b = true ↔
  State.AlertRuleUID a = State.AlertRuleUID b
  ∧ State.OrgID a = State.OrgID b
  ∧ State.CacheId a = State.CacheId b
  ∧ data.String (State.Labels a) = data.String (State.Labels b)
  ∧ State.State a = State.State b
  ∧ State.StartsAt a = State.StartsAt b
  ∧ State.EndsAt a = State.EndsAt b
  ∧ State.LastEvaluationTime a = State.LastEvaluationTime b
  ∧ data.String (State.Annotations a) = data.String (State.Annotations b).
Proof.
  unfold Equals. rewrite !andb_true_iff, !bool_decide_eq_true.
  split.
  - intros ((((((((? & ?) & ?) & ?) & ?) & ?) & ?) & ?) & ?).
    repeat split; auto using State_String_inj.
  - intros (? & ? & ? & ? & ? & ? & ? & ? & ?).
    repeat split; auto; congruence.
Qed.

(** X12: [Equals] is an equivalence: every state equals itself, the order of the
    two states does not matter, and states equal to a common one are
    equal. *)
Theorem Equals_equivalence :
  (∀ a, Equals a a = true)
  ∧ (∀ a b, Equals a b = Equals b a)
  ∧ (∀ a b c, Equals a b = true → Equals b c = true → Equals a c = true).
Proof.
  split; [|split].
  - intros a. apply Equals_true_iff. repeat split.
  - intros a b. apply eq_true_iff_eq. rewrite !Equals_true_iff.
    split; intros (? & ? & ? & ? & ? & ? & ? & ? & ?); repeat split; auto.
  - intros a b c Hab Hbc. apply Equals_true_iff in Hab, Hbc.
    apply Equals_true_iff.
    destruct Hab as (? & ? & ? & ? & ? & ? & ? & ? & ?).
    destruct Hbc as (? & ? & ? & ? & ? & ? & ? & ? & ?).
    repeat split; congruence.
Qed.

(** X13: states that are Equal agree on the rule, the organisation, the cache
    key, the categorical state and the three compared times; and [Equals]
    looks at nothing but the compared values: Resolved, the history,
    LastSentAt, EvaluationDuration and the error play no part. *)
Theorem Equals_compared_fields (a b : State.t) :
  (Equals a b = true →
     State.AlertRuleUID a = State.AlertRuleUID b
     ∧ State.OrgID a = State.OrgID b
     ∧ State.CacheId a = State.CacheId b
     ∧ State.State a = State.State b
     ∧ State.StartsAt a = State.StartsAt b
     ∧ State.EndsAt a = State.EndsAt b
     ∧ State.LastEvaluationTime a = State.LastEvaluationTime b)
  ∧ (∀ b' : State.t,
       State.AlertRuleUID b' = State.AlertRuleUID b →
       State.OrgID b' = State.OrgID b →
       State.CacheId b' = State.CacheId b →
       State.Labels b' = State.Labels b →
       State.State b' = State.State b →
       State.StartsAt b' = State.StartsAt b →
       State.EndsAt b' = State.EndsAt b →
       State.LastEvaluationTime b' = State.LastEvaluationTime b →
       State.Annotations b' = State.Annotations b →
       Equals a b' = Equals a b).
Proof.
  split.
  - intros H. apply Equals_true_iff in H.
    destruct H as (? & ? & ? & ? & ? & ? & ? & ? & ?). repeat split; auto.
  - intros b' H1 H2 H3 H4 H5 H6 H7 H8 H9. unfold Equals.
    rewrite H1, H2, H3, H4, H5, H6, H7, H8, H9. reflexivity.
Qed.

(** * Further properties of the history *)

(** The capacity is never zero. *)
Lemma numBuckets_nonzero (alertRule : ngModels.AlertRule.t) (capacity : Z) :
  numBuckets alertRule = Some capacity → capacity ≠ 0.
Proof.
  unfold numBuckets. destruct (int64.div _ _) as [q|]; [|discriminate]. cbn.
  destruct (Z.eqb_spec (int64.mul 2 q) 0); intros [= <-]; lia.
Qed.

(** What [TrimResults] returns, by the capacity. *)
Lemma TrimResults_eq (a : State.t) (alertRule : ngModels.AlertRule.t)
    (capacity : Z) :
  numBuckets alertRule = Some capacity →
  TrimResults a alertRule
  = if Z.of_nat (length (State.Results a)) <? capacity then Some a
    else if capacity <? 0 then None
    else Some (State.set_Results a
                 (drop (length (State.Results a) - Z.to_nat capacity)
                    (State.Results a))).
Proof.
  intros Hcap. unfold TrimResults. rewrite Hcap. cbn.
  destruct (Z.ltb_spec (Z.of_nat (length (State.Results a))) capacity)
    as [Hlt|Hge]; [reflexivity|].
  unfold slice.make.
  destruct (Z.ltb_spec capacity 0) as [Hneg|Hpos]; [reflexivity|]. cbn.
  unfold slice.from.
  destruct (Z.ltb_spec (Z.of_nat (length (State.Results a)) - capacity) 0);
    [lia|].
  destruct (Z.ltb_spec (Z.of_nat (length (State.Results a)))
              (Z.of_nat (length (State.Results a)) - capacity)); [lia|].
  cbn.
  replace (Z.to_nat (Z.of_nat (length (State.Results a)) - capacity))
    with (length (State.Results a) - Z.to_nat capacity)%nat by lia.
  rewrite copy_full; [reflexivity|].
  rewrite length_drop. lia.
Qed.

(** Dropping fewer elements than a list has leaves its last one. *)
Lemma last_drop_lt {T} (l : list T) (n : nat) :
  (n < length l)%nat → last (drop n l) = last l.
Proof.
  intros Hn. rewrite !last_lookup, lookup_drop, length_drop. f_equal. lia.
Qed.

(** X14: trimming a trimmed history changes nothing. *)
Theorem TrimResults_idempotent
    (a a' : State.t) (alertRule : ngModels.AlertRule.t) :
  TrimResults a alertRule = Some a' → TrimResults a' alertRule = Some a'.
Proof.
  destruct (numBuckets alertRule) as [capacity|] eqn:Hcap;
    [|unfold TrimResults; rewrite Hcap; discriminate].
  rewrite !(TrimResults_eq _ _ _ Hcap).
  destruct (Z.ltb_spec (Z.of_nat (length (State.Results a))) capacity)
    as [Hlt|Hge].
  - intros [= <-].
    destruct (Z.ltb_spec (Z.of_nat (length (State.Results a))) capacity);
      [reflexivity | lia].
  - destruct (Z.ltb_spec capacity 0) as [|Hpos]; [discriminate|].
    intros [= <-]. cbn. rewrite length_drop.
    destruct (Z.ltb_spec
                (Z.of_nat (length (State.Results a)
                           - (length (State.Results a) - Z.to_nat capacity)))
                capacity); [lia|].
    replace (length (State.Results a)
             - (length (State.Results a) - Z.to_nat capacity)
             - Z.to_nat capacity)%nat with 0%nat by lia.
    reflexivity.
Qed.

(** X15: when [TrimResults] returns, the new history is a suffix of the old one
    no longer than the capacity, it still ends with the most recent
    evaluation, and no other field of the state has changed. *)
Theorem TrimResults_keeps_newest
    (a a' : State.t) (alertRule : ngModels.AlertRule.t) :
  TrimResults a alertRule = Some a' →
  (∃ capacity, numBuckets alertRule = Some capacity
               ∧ Z.of_nat (length (State.Results a')) <= capacity)
  ∧ State.Results a' `suffix_of` State.Results a
  ∧ last (State.Results a') = last (State.Results a)
  ∧ a' = State.set_Results a (State.Results a').
Proof.
  destruct (numBuckets alertRule) as [capacity|] eqn:Hcap;
    [|unfold TrimResults; rewrite Hcap; discriminate].
  pose proof (numBuckets_nonzero _ _ Hcap) as Hnz.
  rewrite (TrimResults_eq _ _ _ Hcap).
  destruct (Z.ltb_spec (Z.of_nat (length (State.Results a))) capacity)
    as [Hlt|Hge].
  - intros [= <-]. split; [exists capacity; split; [reflexivity | lia]|].
    split; [reflexivity|]. split; [reflexivity|]. destruct a; reflexivity.
  - destruct (Z.ltb_spec capacity 0) as [|Hpos]; [discriminate|].
    intros [= <-]. cbn.
    split; [exists capacity; split; [reflexivity|]; rewrite length_drop; lia|].
    split; [apply suffix_drop|]. split; [|reflexivity].
    destruct (State.Results a) as [|x l] eqn:Hl; [reflexivity|].
    apply last_drop_lt. cbn [length] in *. lia.
Qed.

(** X16: the steady state of the evaluation loop: a new evaluation appended to a
    history within the capacity stays, at most the oldest entry leaves, and
    the history is within the capacity again. *)
Theorem TrimResults_after_append
    (a : State.t) (alertRule : ngModels.AlertRule.t) (capacity : Z)
    (e : Evaluation.t) :
  numBuckets alertRule = Some capacity →
  Z.of_nat (length (State.Results a)) <= capacity →
  ∃ a', TrimResults (State.set_Results a (State.Results a ++ [e])) alertRule
        = Some a'
    ∧ Z.of_nat (length (State.Results a')) <= capacity
    ∧ last (State.Results a') = Some e
    ∧ (Z.of_nat (length (State.Results a)) < capacity →
         State.Results a' = State.Results a ++ [e])
    ∧ (Z.of_nat (length (State.Results a)) = capacity →
         State.Results a' = drop 1 (State.Results a) ++ [e]).
Proof.
  intros Hcap Hlen.
  pose proof (numBuckets_nonzero _ _ Hcap) as Hnz.
  rewrite (TrimResults_eq _ _ _ Hcap). cbn. rewrite length_app. cbn.
  destruct (Z.ltb_spec (Z.of_nat (length (State.Results a) + 1)) capacity)
    as [Hlt|Hge].
  - eexists. split; [reflexivity|]. cbn. rewrite length_app. cbn.
    split; [lia|]. split; [apply last_snoc|]. split; [reflexivity | lia].
  - destruct (Z.ltb_spec capacity 0) as [|Hpos]; [lia|].
    eexists. split; [reflexivity|]. cbn.
    rewrite length_drop, length_app. cbn.
    split; [lia|].
    assert (Hcase :
      ((length (State.Results a) + 1 - Z.to_nat capacity)%nat = 0%nat
       ∧ Z.of_nat (length (State.Results a)) < capacity)
      ∨ ((length (State.Results a) + 1 - Z.to_nat capacity)%nat = 1%nat
         ∧ Z.of_nat (length (State.Results a)) = capacity)) by lia.
    destruct Hcase as [[-> Hc] | [-> Hc]].
    + rewrite drop_0. split; [apply last_snoc|]. split; [reflexivity | lia].
    + rewrite drop_app_le by lia.
      split; [apply last_snoc|]. split; [lia | reflexivity].
Qed.

(** * The values of an evaluation *)

(** Inserting the entries of a list one by one builds the map of the list
    read backwards, over the map the loop started from. *)
Lemma foldl_insert_list_to_map {V W} (g : V → W) (l : list (string * V))
    (m0 : gmap string W) :
  foldl (λ m kv, <[kv.1 := g kv.2]> m) m0 l
  = list_to_map (reverse (prod_map id g <$> l)) ∪ m0.
Proof.
  revert m0. induction l as [|[k v] l IH]; intros m0.
  - cbn. rewrite (left_id_L ∅ (∪)). reflexivity.
  - cbn [foldl]. rewrite IH, fmap_cons, reverse_cons, list_to_map_app.
    rewrite <- (assoc_L (∪)). f_equal.
    change (prod_map id g (k, v)) with (k, g v).
    rewrite list_to_map_cons, list_to_map_nil. cbn.
    rewrite (insert_union_singleton_l m0), insert_empty. reflexivity.
Qed.

(** X18: [NewEvaluationValues] maps every reference of the captures to the value
    pointer of its capture and has no other key, in whatever order the map
    of the captures is iterated. *)
Theorem NewEvaluationValues_lookup
    (m : gmap string NumberValueCapture.t)
    (range : list (string * NumberValueCapture.t)) :
  range ≡ₚ map_to_list m →
  NewEvaluationValuesFrom range = NewEvaluationValues m
  ∧ (∀ k, NewEvaluationValuesFrom range !! k
          = NumberValueCapture.Value <$> m !! k)
  ∧ dom (NewEvaluationValuesFrom range) = dom m.
Proof.
  intros Hp.
  assert (Hfrom : ∀ l, l ≡ₚ map_to_list m →
            NewEvaluationValuesFrom l = NumberValueCapture.Value <$> m).
  { intros l Hl. unfold NewEvaluationValuesFrom.
    rewrite foldl_insert_list_to_map, (right_id_L ∅ (∪)).
    rewrite <- (list_to_map_to_list m) at 1.
    rewrite <- list_to_map_fmap.
    apply list_to_map_proper.
    - rewrite fmap_reverse, reverse_Permutation, <- list_fmap_compose.
      rewrite (list_fmap_ext _ fst l) by (intros ? [??]; reflexivity).
      rewrite Hl. apply NoDup_fst_map_to_list.
    - rewrite reverse_Permutation, Hl. reflexivity. }
  unfold NewEvaluationValues. rewrite !Hfrom by (assumption || reflexivity).
  split; [reflexivity|]. split; [intros k; apply lookup_fmap|].
  apply dom_fmap_L.
Qed.

(** * The filter of the route table *)

(** The entries a boolean filter keeps are a subsequence of the list. *)
Lemma filter_sublist {T} (f : T → bool) (l : list T) :
  List.filter f l `sublist_of` l.
Proof.
  induction l as [|x l IH]; cbn; [constructor|].
  destruct (f x); [apply sublist_skip | apply sublist_cons]; assumption.
Qed.

Lemma elem_of_filter_bool {T} (f : T → bool) (l : list T) (x : T) :
  x ∈ List.filter f l ↔ x ∈ l ∧ f x = true.
Proof. rewrite !list_elem_of_In. apply filter_In. Qed.

Section RouteTableProperties.

Context {Route MatcherField Matcher : Type} `{!EqDecision Matcher}.
Variable object_matchers : Route → list MatcherField.
Variable receiver : Route → string.
Variable parseMatchers : string → list Matcher.
Variable matcherFieldToMatcher : MatcherField → Matcher.
Variable toLowerCase : string → string.

Lemma existsb_isEqual (x : Matcher) (others : list Matcher) :
  existsb (isEqual x) others = true ↔ x ∈ others.
Proof.
  rewrite existsb_exists, list_elem_of_In. unfold isEqual. split.
  - intros (y & Hy & Heq). apply bool_decide_eq_true in Heq. congruence.
  - intros Hx. exists x. split; [assumption|].
    apply bool_decide_eq_true. reflexivity.
Qed.

(** The intersection is not empty exactly when the two lists share a
    value. *)
Lemma intersectionWith_nonempty (array others : list Matcher) :
  (0 <? length (js.intersectionWith array others isEqual))%nat = true
  ↔ ∃ x, x ∈ array ∧ x ∈ others.
Proof.
  unfold js.intersectionWith.
  enough (H : ∀ result : list Matcher,
            (0 < length
                   (foldl (λ result x,
                             if existsb (isEqual x) others
                                && negb (existsb (isEqual x) result)
                             then result ++ [x] else result)
                      result array))%nat
            ↔ (0 < length result)%nat ∨ ∃ x, x ∈ array ∧ x ∈ others).
  { rewrite Nat.ltb_lt, H. cbn. split; [intros [?|?]; [lia | assumption]|].
    intros ?. right. assumption. }
  induction array as [|y array IH]; intros result; cbn [foldl].
  - split; [intros ?; left; assumption|].
    intros [?|(x & Hx & _)]; [assumption | inversion Hx].
  - rewrite IH. clear IH.
    destruct (existsb (isEqual y) others) eqn:Hy; cbn [andb].
    + apply existsb_isEqual in Hy.
      split; [intros _; right; exists y; split; [left | assumption]|].
      intros _.
      destruct (existsb (isEqual y) result) eqn:Hr; cbn [negb].
      * apply existsb_isEqual in Hr. left.
        destruct result; [inversion Hr | cbn; lia].
      * left. rewrite length_app. cbn. lia.
    + assert (Hny : y ∉ others).
      { intros Hin. apply existsb_isEqual in Hin. congruence. }
      split.
      * intros [?|(x & Hx & Ho)]; [left; assumption|].
        right. exists x. split; [right; assumption | assumption].
      * intros [?|(x & Hx & Ho)]; [left; assumption|].
        right. exists x. split; [|assumption].
        apply elem_of_cons in Hx as [->|Hx]; [contradiction | assumption].
Qed.

(** A route passes the first filter when one of its matchers, converted, is
    among the given ones. *)
Lemma matchesLabels_spec (matchers : list Matcher) (route : Route) :
  matchesLabels object_matchers matcherFieldToMatcher matchers route = true
  ↔ ∃ field, field ∈ object_matchers route
             ∧ matcherFieldToMatcher field ∈ matchers.
Proof.
  unfold matchesLabels. rewrite intersectionWith_nonempty. split.
  - intros (x & Hx & Ho). apply list_elem_of_In, in_map_iff in Hx.
    destruct Hx as (field & <- & Hf). exists field.
    split; [apply list_elem_of_In|]; assumption.
  - intros (field & Hf & Ho). exists (matcherFieldToMatcher field).
    split; [|assumption].
    apply list_elem_of_In, in_map, list_elem_of_In. assumption.
Qed.

(** X19: without a matcher in the query (also when the query is left out) and
    without a contact point (left out or empty) all routes are returned. *)
Theorem getFilteredRoutes_no_filter (routes : list Route)
    (labelMatcherQuery contactPointQuery : option string) :
  parseMatchers (default "" labelMatcherQuery) = [] →
  contactPointQuery = None ∨ contactPointQuery = Some "" →
  getFilteredRoutes object_matchers receiver parseMatchers
    matcherFieldToMatcher toLowerCase routes
    labelMatcherQuery contactPointQuery
  = routes.
Proof.
  intros Hm Hc. unfold getFilteredRoutes. rewrite Hm. cbn.
  destruct Hc as [-> | ->]; reflexivity.
Qed.

(** X20: the routes returned are routes of the table, in the order of the table:
    those with a matcher among the parsed ones, when the query holds
    matchers, and whose receiver contains the contact point, letter case
    apart, when one is given. *)
Theorem getFilteredRoutes_spec (routes : list Route)
    (labelMatcherQuery contactPointQuery : option string) :
  let filteredRoutes :=
    getFilteredRoutes object_matchers receiver parseMatchers
      matcherFieldToMatcher toLowerCase routes
      labelMatcherQuery contactPointQuery in
  let matchers := parseMatchers (default "" labelMatcherQuery) in
  filteredRoutes `sublist_of` routes
  ∧ ∀ route,
      route ∈ filteredRoutes
      ↔ route ∈ routes
        ∧ (matchers = []
           ∨ ∃ field, field ∈ object_matchers route
                      ∧ matcherFieldToMatcher field ∈ matchers)
        ∧ match contactPointQuery with
          | None => True
          | Some query =>
              query = ""
              ∨ js.includes (toLowerCase (receiver route))
                  (toLowerCase query) = true
          end.
Proof.
  intros filteredRoutes matchers. subst filteredRoutes.
  unfold getFilteredRoutes. fold matchers.
  assert (Hfirst : ∀ route,
            route ∈ (if negb (length matchers =? 0)%nat
                     then List.filter
                            (matchesLabels object_matchers
                               matcherFieldToMatcher matchers) routes
                     else routes)
            ↔ route ∈ routes
              ∧ (matchers = []
                 ∨ ∃ field, field ∈ object_matchers route
                            ∧ matcherFieldToMatcher field ∈ matchers)).
  { intros route. destruct matchers as [|m ms] eqn:Hms; cbn.
    - split; [intros ?; split; [assumption | left; reflexivity]|].
      intros [? _]. assumption.
    - rewrite elem_of_filter_bool, matchesLabels_spec.
      split; [intros [? ?]; split; [assumption | right; assumption]|].
      intros [? [?|?]]; [discriminate | split; assumption]. }
  assert (Hsub : (if negb (length matchers =? 0)%nat
                  then List.filter
                         (matchesLabels object_matchers
                            matcherFieldToMatcher matchers) routes
                  else routes) `sublist_of` routes).
  { destruct (negb _); [apply filter_sublist | reflexivity]. }
  destruct contactPointQuery as [query|].
  - destruct query as [|c query].
    + cbn. split; [assumption|]. intros route. rewrite Hfirst.
      split; [intros [? ?]; repeat split; auto|].
      intros (? & ? & _). split; assumption.
    + cbn [String.length Nat.ltb Nat.leb].
      split; [etrans; [apply filter_sublist | assumption]|].
      intros route. rewrite elem_of_filter_bool, Hfirst.
      unfold matchesContactPoint.
      split; [intros [[? ?] ?]; repeat split; auto|].
      intros (? & ? & [?|?]); [discriminate | repeat split; assumption].
  - split; [assumption|]. intros route. rewrite Hfirst.
    split; [intros [? ?]; repeat split; auto|].
    intros (? & ? & _). split; assumption.
Qed.

(** A boolean filter that every entry passes keeps the list. *)
Lemma filter_all {T} (f : T → bool) (l : list T) :
  (∀ x, x ∈ l → f x = true) → List.filter f l = l.
Proof.
  induction l as [|x l IH]; intros Hall; cbn; [reflexivity|].
  rewrite (Hall x) by left. f_equal. apply IH. intros y Hy. apply Hall.
  right. assumption.
Qed.

(** X21: filtering is stable and the two filters compose: the filtered routes,
    filtered again with the same arguments, are themselves; and filtering
    by the matchers and then, with the matcher query left out, by the
    contact point gives what the two arguments give together, when
    [parseMatchers] reads no matcher in the empty text. *)
Theorem getFilteredRoutes_refine (routes : list Route)
    (labelMatcherQuery contactPointQuery : option string) :
  getFilteredRoutes object_matchers receiver parseMatchers
    matcherFieldToMatcher toLowerCase
    (getFilteredRoutes object_matchers receiver parseMatchers
       matcherFieldToMatcher toLowerCase routes
       labelMatcherQuery contactPointQuery)
    labelMatcherQuery contactPointQuery
  = getFilteredRoutes object_matchers receiver parseMatchers
      matcherFieldToMatcher toLowerCase routes
      labelMatcherQuery contactPointQuery
  ∧ (parseMatchers "" = [] →
     getFilteredRoutes object_matchers receiver parseMatchers
       matcherFieldToMatcher toLowerCase
       (getFilteredRoutes object_matchers receiver parseMatchers
          matcherFieldToMatcher toLowerCase routes labelMatcherQuery None)
       None contactPointQuery
     = getFilteredRoutes object_matchers receiver parseMatchers
         matcherFieldToMatcher toLowerCase routes
         labelMatcherQuery contactPointQuery).
Proof.
  split.
  - unfold getFilteredRoutes.
    destruct (negb (length (parseMatchers (default "" labelMatcherQuery))
                    =? 0)%nat);
      destruct contactPointQuery as [query|];
      try destruct (0 <? String.length query)%nat;
      try reflexivity.
    + rewrite (filter_all _ (List.filter _ (List.filter _ routes))).
      * apply filter_all. intros x Hx. apply elem_of_filter_bool in Hx.
        tauto.
      * intros x Hx. apply elem_of_filter_bool in Hx as [Hx _].
        apply elem_of_filter_bool in Hx. tauto.
    + apply filter_all. intros x Hx. apply elem_of_filter_bool in Hx. tauto.
    + apply filter_all. intros x Hx. apply elem_of_filter_bool in Hx. tauto.
    + apply filter_all. intros x Hx. apply elem_of_filter_bool in Hx. tauto.
  - intros Hempty. unfold getFilteredRoutes at 1. cbn [default].
    rewrite Hempty. cbn [length Nat.eqb negb].
    unfold getFilteredRoutes. reflexivity.
Qed.

End RouteTableProperties.

(** * Instances of the further properties *)

(** A NoData result leaves the two mappings alone. *)
Lemma mappings_unchanged_witness :
  let a := sample.state eval.Normal 100 100 in
  let alertRule := sample.rule (5 * time.Minute) 60 in
  let result := sample.result eval.NoData 160 None in
  State.Labels (Transition sample.ResendDelay a alertRule result)
  = State.Labels a.
Proof.
  intros a alertRule result.
  assert (Hno : ¬ (eval.Result.State result = eval.Error
                   ∧ ngModels.AlertRule.ExecErrState alertRule
                     = ngModels.ErrorErrState
                   ∧ is_Some (errors.As (eval.Result.Error result))))
    by (intros [H _]; discriminate H).
  destruct (mappings_change_only_on_query_error sample.ResendDelay a
              alertRule result Hno) as [HL _].
  exact HL.
Defined.

(** The failure of query A does not touch the label alertname. *)
Lemma other_entries_witness :
  let a := sample.state eval.Normal 100 100 in
  let alertRule := sample.rule (5 * time.Minute) 60 in
  let result := sample.result eval.Error 160 (sample.queryFailure "A") in
  State.Labels (Transition sample.ResendDelay a alertRule result)
    !! "alertname"
  = State.Labels a !! "alertname".
Proof.
  intros a alertRule result.
  destruct (other_entries_preserved sample.ResendDelay a alertRule result
              "alertname") as [HL _].
  apply HL; discriminate.
Defined.

(** An Error result on a run that began at second 100 keeps that start. *)
Lemma Error_NoData_policy_witness :
  let a := sample.state eval.Alerting 100 280 in
  let alertRule := sample.rule (5 * time.Minute) 60 in
  let result := sample.result eval.Error 160 (sample.queryFailure "A") in
  (State.StartsAt a : Z) ≠ time.zero
  ∧ State.StartsAt (Transition sample.ResendDelay a alertRule result)
    = sample.at_second 100
  ∧ State.State (Transition sample.ResendDelay a alertRule result)
    = eval.Error.
Proof.
  intros a alertRule result.
  assert (Hz : (State.StartsAt a : Z) ≠ time.zero) by discriminate.
  split; [exact Hz|].
  destruct (Error_NoData_policy sample.ResendDelay a alertRule result
              (or_introl eq_refl)) as (Hkeep & _ & _ & Hst & _).
  split; [exact (Hkeep Hz) | exact (Hst eq_refl)].
Defined.

(** The Pending state of second 160 was entered by an Alerting result. *)
Lemma Pending_entered_witness :
  let a := sample.state eval.Normal 100 100 in
  let alertRule := sample.rule (5 * time.Minute) 60 in
  let result := sample.result eval.Alerting 160 None in
  State.State a ≠ eval.Pending
  ∧ State.State (Transition sample.ResendDelay a alertRule result)
    = eval.Pending
  ∧ 0 < ngModels.AlertRule.For alertRule.
Proof.
  intros a alertRule result.
  assert (Hnp : State.State a ≠ eval.Pending) by discriminate.
  assert (Hp : State.State (Transition sample.ResendDelay a alertRule result)
               = eval.Pending) by (vm_compute; reflexivity).
  split; [exact Hnp|]. split; [exact Hp|].
  destruct (Pending_entered_by_alert sample.ResendDelay a alertRule result
              Hnp Hp) as (_ & Hfor & _).
  exact Hfor.
Defined.

(** An Alerting run from second 100 to 280, refreshed at second 160. *)
Lemma StartsAt_le_EndsAt_witness :
  let a := sample.state eval.Alerting 100 280 in
  let alertRule := sample.rule (5 * time.Minute) 60 in
  let result := sample.result eval.Alerting 160 None in
  State.StartsAt a <= State.EndsAt a
  ∧ State.StartsAt a <= eval.Result.EvaluatedAt result
  ∧ 0 <= int64.mul (ends sample.ResendDelay alertRule) 3
  ∧ State.StartsAt (Transition sample.ResendDelay a alertRule result)
    <= State.EndsAt (Transition sample.ResendDelay a alertRule result).
Proof.
  intros a alertRule result.
  assert (H1 : State.StartsAt a <= State.EndsAt a)
    by (vm_compute; discriminate).
  assert (H2 : State.StartsAt a <= eval.Result.EvaluatedAt result)
    by (vm_compute; discriminate).
  assert (H3 : 0 <= int64.mul (ends sample.ResendDelay alertRule) 3)
    by (vm_compute; discriminate).
  split; [exact H1|]. split; [exact H2|]. split; [exact H3|].
  exact (StartsAt_le_EndsAt_preserved sample.ResendDelay a alertRule result
           H1 H2 H3).
Defined.

(** Two more Alerting results on an Alerting instance. *)
Lemma alerting_run_continues_witness :
  let a := sample.state eval.Alerting 100 280 in
  let alertRule := sample.rule (5 * time.Minute) 60 in
  let results :=
    [sample.result eval.Alerting 160 None;
     sample.result eval.Alerting 220 None] in
  State.State a = eval.Alerting
  ∧ State.StartsAt (TransitionAll sample.ResendDelay a alertRule results)
    = sample.at_second 100.
Proof.
  intros a alertRule results. split; [reflexivity|].
  assert (Hall : Forall (λ r, eval.Result.State r = eval.Alerting) results).
  { apply Forall_cons. split; [reflexivity|].
    apply Forall_cons. split; [reflexivity | apply Forall_nil_2]. }
  destruct (alerting_run_continues sample.ResendDelay alertRule results a
              eq_refl Hall) as [_ Hs].
  exact Hs.
Defined.

(** Two Normal results after an Alerting run. *)
Lemma normal_run_witness :
  let a := sample.state eval.Alerting 100 280 in
  let alertRule := sample.rule (5 * time.Minute) 60 in
  let first := sample.result eval.Normal 160 None in
  let results := [sample.result eval.Normal 220 None] in
  State.State a ≠ eval.Normal
  ∧ State.EndsAt
      (TransitionAll sample.ResendDelay a alertRule (first :: results))
    = sample.at_second 160.
Proof.
  intros a alertRule first results.
  assert (Hn : State.State a ≠ eval.Normal) by discriminate.
  split; [exact Hn|].
  assert (Hall : Forall (λ r, eval.Result.State r = eval.Normal)
                   (first :: results)).
  { apply Forall_cons. split; [reflexivity|].
    apply Forall_cons. split; [reflexivity | apply Forall_nil_2]. }
  destruct (normal_run sample.ResendDelay alertRule a first results Hall)
    as (_ & Hfresh & _).
  destruct (Hfresh Hn) as [_ He]. exact He.
Defined.

(** Alerting results at the seconds 160, 220 and 520 under For = 5m: at
    second 520 more than For has elapsed since second 160. *)
Lemma alerting_run_witness :
  let a := sample.state eval.Normal 100 100 in
  let alertRule := sample.rule (5 * time.Minute) 60 in
  let first := sample.result eval.Alerting 160 None in
  let results :=
    [sample.result eval.Alerting 220 None;
     sample.result eval.Alerting 520 None] in
  0 < ngModels.AlertRule.For alertRule
  ∧ State.State
      (TransitionAll sample.ResendDelay a alertRule (first :: results))
    = eval.Alerting.
Proof.
  intros a alertRule first results.
  assert (Hfor : 0 < ngModels.AlertRule.For alertRule)
    by (vm_compute; reflexivity).
  split; [exact Hfor|].
  assert (Hna : State.State a ≠ eval.Alerting) by discriminate.
  assert (Hnp : State.State a ≠ eval.Pending) by discriminate.
  assert (Hall : Forall (λ r, eval.Result.State r = eval.Alerting)
                   (first :: results)).
  { apply Forall_cons. split; [reflexivity|].
    apply Forall_cons. split; [reflexivity|].
    apply Forall_cons. split; [reflexivity | apply Forall_nil_2]. }
  assert (Hsorted : Sorted Z.le
                      (time.instant
                         <$> (eval.Result.EvaluatedAt <$> first :: results))).
  { apply Sorted_cons; [apply Sorted_cons; [apply Sorted_cons|]|].
    - apply Sorted_nil.
    - apply HdRel_nil.
    - apply HdRel_cons. vm_compute. discriminate.
    - apply HdRel_cons. vm_compute. discriminate. }
  destruct (alerting_run sample.ResendDelay alertRule a first results
              Hna Hnp Hfor Hall Hsorted) as [_ Hfire].
  apply Hfire. vm_compute. reflexivity.
Defined.

(** With a resend delay of 30 seconds and an interval of 60 seconds EndsAt
    is at least 180 seconds after the evaluation timestamp. *)
Lemma setEndsAt_window_witness :
  let a := sample.state eval.Alerting 100 280 in
  let alertRule := sample.rule (5 * time.Minute) 60 in
  let result := sample.result eval.Alerting 160 None in
  0 <= sample.ResendDelay
  ∧ eval.Result.EvaluatedAt result + 3 * (time.Second * 60)
    <= State.EndsAt (setEndsAt sample.ResendDelay a alertRule result).
Proof.
  intros a alertRule result.
  assert (H0 : 0 <= sample.ResendDelay) by (vm_compute; discriminate).
  assert (Hs : float64.to_int64 (time.Seconds sample.ResendDelay)
               = Z.quot sample.ResendDelay time.Second)
    by (vm_compute; reflexivity).
  assert (Hr : int64.InRange
                 (time.Second * ngModels.AlertRule.IntervalSeconds alertRule))
    by (split; vm_compute; discriminate).
  assert (H3 : int64.InRange
                 (3 * Z.max sample.ResendDelay
                        (time.Second
                         * ngModels.AlertRule.IntervalSeconds alertRule)))
    by (split; vm_compute; discriminate).
  split; [exact H0|].
  destruct (setEndsAt_window_bounds sample.ResendDelay H0 Hs a alertRule
              result Hr H3) as (_ & Hint & _).
  exact Hint.
Defined.

(** What a delay of 30 seconds lets through, one of 10 seconds does. *)
Lemma NeedsSending_delay_witness :
  let a := sample.state eval.Alerting 100 280 in
  10 * time.Second <= sample.ResendDelay
  ∧ NeedsSending a sample.ResendDelay = true
  ∧ NeedsSending a (10 * time.Second) = true.
Proof.
  intros a.
  assert (Hle : 10 * time.Second <= sample.ResendDelay)
    by (vm_compute; discriminate).
  assert (Hn : NeedsSending a sample.ResendDelay = true)
    by (vm_compute; reflexivity).
  split; [exact Hle|]. split; [exact Hn|].
  destruct (NeedsSending_delay a sample.ResendDelay) as [Hmono _].
  exact (Hmono _ Hle Hn).
Defined.

(** Three instances with their mappings assigned in different orders. *)
Lemma Equals_equivalence_witness :
  let a :=
    sample.labelled (sample.state eval.Alerting 100 280)
      [("alertname", "cpu"); ("instance", "a")] [] in
  let b :=
    sample.labelled (sample.state eval.Alerting 100 280)
      [("instance", "a"); ("alertname", "cpu")] [] in
  let c := State.set_Error b (sample.queryFailure "A") in
  Equals a b = true ∧ Equals b c = true ∧ Equals a c = true.
Proof.
  intros a b c.
  assert (Hab : Equals a b = true) by (vm_compute; reflexivity).
  assert (Hbc : Equals b c = true) by (vm_compute; reflexivity).
  split; [exact Hab|]. split; [exact Hbc|].
  destruct Equals_equivalence as (_ & _ & Htrans).
  exact (Htrans a b c Hab Hbc).
Defined.

(** An instance and its copy with another history and error. *)
Lemma Equals_compared_fields_witness :
  let a := sample.state eval.Alerting 100 280 in
  let b := State.set_Error (fixture.withHistory 3) None in
  let b' := State.set_Results b [] in
  Equals a b' = Equals a b.
Proof.
  intros a b b'.
  destruct (Equals_compared_fields a b) as [_ Hblind].
  apply Hblind; reflexivity.
Defined.

(** A history of 15 entries, trimmed to 10, and trimmed again. *)
Lemma TrimResults_idempotent_witness :
  let a := sample.state eval.Normal 100 100 in
  let alertRule := sample.rule (5 * time.Minute) 60 in
  let a' := State.set_Results a (sample.evaluation <$> seqZ 6 10) in
  TrimResults a alertRule = Some a' ∧ TrimResults a' alertRule = Some a'.
Proof.
  intros a alertRule a'.
  assert (H : TrimResults a alertRule = Some a') by (vm_compute; reflexivity).
  split; [exact H|].
  exact (TrimResults_idempotent a a' alertRule H).
Defined.

(** The trimmed history still ends with the evaluation of second 15. *)
Lemma TrimResults_keeps_newest_witness :
  let a := sample.state eval.Normal 100 100 in
  let alertRule := sample.rule (5 * time.Minute) 60 in
  let a' := State.set_Results a (sample.evaluation <$> seqZ 6 10) in
  TrimResults a alertRule = Some a'
  ∧ last (State.Results a') = last (State.Results a).
Proof.
  intros a alertRule a'.
  assert (H : TrimResults a alertRule = Some a') by (vm_compute; reflexivity).
  split; [exact H|].
  destruct (TrimResults_keeps_newest a a' alertRule H) as (_ & _ & Hl & _).
  exact Hl.
Defined.

(** A full history of 10 entries takes an eleventh and loses its oldest. *)
Lemma TrimResults_after_append_witness :
  let a := fixture.withHistory 10 in
  let alertRule := sample.rule (5 * time.Minute) 60 in
  numBuckets alertRule = Some 10
  ∧ Z.of_nat (length (State.Results a)) <= 10
  ∧ ∃ a', TrimResults
            (State.set_Results a (State.Results a ++ [sample.evaluation 11]))
            alertRule = Some a'
          ∧ last (State.Results a') = Some (sample.evaluation 11).
Proof.
  intros a alertRule.
  assert (Hcap : numBuckets alertRule = Some 10) by (vm_compute; reflexivity).
  assert (Hlen : Z.of_nat (length (State.Results a)) <= 10)
    by (vm_compute; discriminate).
  split; [exact Hcap|]. split; [exact Hlen|].
  destruct (TrimResults_after_append a alertRule 10 (sample.evaluation 11)
              Hcap Hlen) as (a' & Ha' & _ & Hlast & _).
  exists a'. split; [exact Ha' | exact Hlast].
Defined.

(** For = 5m is 300 whole seconds: with an interval of 60 seconds the
    capacity is 10. *)
Lemma numBuckets_whole_seconds_witness :
  let alertRule := sample.rule (5 * time.Minute) 60 in
  0 <= 300 < 2 ^ 53
  ∧ ngModels.AlertRule.For alertRule = 300 * time.Second
  ∧ 0 < ngModels.AlertRule.IntervalSeconds alertRule
  ∧ numBuckets alertRule = Some 10.
Proof.
  intros alertRule.
  assert (Hk : 0 <= 300 < 2 ^ 53) by (split; vm_compute; congruence).
  assert (HI : 0 < ngModels.AlertRule.IntervalSeconds alertRule)
    by (vm_compute; reflexivity).
  split; [exact Hk|]. split; [reflexivity|]. split; [exact HI|].
  destruct (numBuckets_whole_seconds alertRule 300 Hk eq_refl HI) as [Hn _].
  exact Hn.
Defined.

(** Two captures, one of them without a value. *)
Lemma NewEvaluationValues_witness :
  let m : gmap string NumberValueCapture.t :=
    <["A" := fixture.capture (Some (float64.of_int 3))]>
      (<["B" := fixture.capture None]> ∅) in
  map_to_list m ≡ₚ map_to_list m
  ∧ NewEvaluationValues m !! "B" = Some None
  ∧ NewEvaluationValues m !! "C" = None.
Proof.
  intros m.
  assert (Hp : map_to_list m ≡ₚ map_to_list m) by reflexivity.
  split; [exact Hp|].
  destruct (NewEvaluationValues_lookup m (map_to_list m) Hp)
    as (_ & Hlookup & _).
  unfold NewEvaluationValues. rewrite !Hlookup.
  split; vm_compute; reflexivity.
Defined.

(** Without arguments the three routes of the table are returned. *)
Lemma getFilteredRoutes_no_filter_witness :
  fixture.parse (default "" None) = []
  ∧ fixture.filtered None (Some "") = fixture.routes.
Proof.
  assert (Hm : fixture.parse (default "" None) = []) by reflexivity.
  split; [exact Hm|].
  exact (getFilteredRoutes_no_filter fixture.matchers fixture.contactPoint
           fixture.parse id id fixture.routes None (Some "") Hm
           (or_intror eq_refl)).
Defined.

(** The routes of team a that page: the third route of the table. *)
Lemma getFilteredRoutes_spec_witness :
  fixture.filtered (Some "team=a") (Some "page")
  = [ {| fixture.matchers := [("team", "a"); ("env", "prod")];
         fixture.contactPoint := "pager" |} ]
  ∧ fixture.filtered (Some "team=a") (Some "page")
    `sublist_of` fixture.routes.
Proof.
  split; [vm_compute; reflexivity|].
  destruct (getFilteredRoutes_spec fixture.matchers fixture.contactPoint
              fixture.parse id id fixture.routes (Some "team=a")
              (Some "page")) as [Hsub _].
  exact Hsub.
Defined.

(** Filtering by team and then by contact point, or by both at once. *)
Lemma getFilteredRoutes_refine_witness :
  fixture.parse "" = []
  ∧ getFilteredRoutes fixture.matchers fixture.contactPoint fixture.parse
      id id (fixture.filtered (Some "team=a") None) None (Some "page")
    = fixture.filtered (Some "team=a") (Some "page").
Proof.
  assert (He : fixture.parse "" = []) by reflexivity.
  split; [exact He|].
  destruct (getFilteredRoutes_refine fixture.matchers fixture.contactPoint
              fixture.parse id id fixture.routes (Some "team=a")
              (Some "page")) as [_ Hcompose].
  exact (Hcompose He).
Defined.
